(** * Light HAL of the F(x)tec Pro1: a shallow embedding of light/Light.cpp

    The service keeps the last state of three logical light sources
    (notification, attention, battery), a slider flag and an LCD flag, and
    turns every request into writes on sysfs streams.  The streams are
    write-only, so the model records every line written, in program order. *)

From Stdlib Require Import ZArith List String Bool Lia DecimalString Sorted.
Import ListNotations.
Open Scope Z_scope.

(** ** Machine integers *)

(** [uint32_t] arithmetic: every result is reduced modulo 2^32. *)
Module U32.
Definition modulus : Z := 2 ^ 32.
Definition wrap (z : Z) : Z := z mod modulus.
Definition add (a b : Z) : Z := wrap (a + b).
Definition mul (a b : Z) : Z := wrap (a * b).
Definition div (a b : Z) : Z := a / b.
Definition shl (a n : Z) : Z := wrap (Z.shiftl a n).
Definition shr (a n : Z) : Z := Z.shiftr a n.
Definition and (a b : Z) : Z := Z.land a b.
Definition valid (z : Z) : Prop := 0 <= z < modulus.
End U32.

(** [int] arithmetic (32 bits, two's complement); division truncates
    towards zero. *)
Module I32.
Definition half : Z := 2 ^ 31.
Definition wrap (z : Z) : Z := (z + half) mod (2 ^ 32) - half.
Definition sub (a b : Z) : Z := wrap (a - b).
Definition mul (a b : Z) : Z := wrap (a * b).
Definition div (a b : Z) : Z := Z.quot a b.
Definition valid (z : Z) : Prop := - half <= z < half.
End I32.

(** ** Types of the light interface *)

(** Modelled from the spec: the declarations of [Light.h] and of the light
    interface it implements are not among the sources.  The flash modes, the
    five supported light types and the two status codes are the ones the
    specification names; [KEYBOARD], [BLUETOOTH] and [WIFI] are the light
    types of the interface that this service does not register, and the
    brightness modes are carried by a light state without being read. *)
Inductive Flash := NONE | TIMED | HARDWARE.
Inductive Brightness := USER | SENSOR | LOW_PERSISTENCE.
Inductive LightType :=
  BACKLIGHT | KEYBOARD | BUTTONS | BATTERY | NOTIFICATIONS | ATTENTION
| BLUETOOTH | WIFI.
Inductive Status :=
  SUCCESS | LIGHT_NOT_SUPPORTED | BRIGHTNESS_NOT_SUPPORTED | UNKNOWN.

Record LightState := mkLightState {
  color : Z;                (* uint32_t, ARGB *)
  flashMode : Flash;
  flashOnMs : Z;            (* int32_t *)
  flashOffMs : Z;           (* int32_t *)
  brightnessMode : Brightness
}.

Definition LightType_eq_dec (a b : LightType) : {a = b} + {a <> b}.
Proof. decide equality. Defined.

Definition LightType_eqb (a b : LightType) : bool :=
  if LightType_eq_dec a b then true else false.

(** ** Output streams *)

(** One constructor per [std::ofstream] member of [Light]. *)
Inductive Sink :=
| mLcdBacklight_first
| mKeyboardBacklight_first
| mButtonBacklight (i : nat)
| mRedLed | mGreenLed | mBlueLed
| mRedDutyPcts | mGreenDutyPcts | mBlueDutyPcts
| mRedStartIdx | mGreenStartIdx | mBlueStartIdx
| mRedPauseLo | mGreenPauseLo | mBluePauseLo
| mRedPauseHi | mGreenPauseHi | mBluePauseHi
| mRedRampStepMs | mGreenRampStepMs | mBlueRampStepMs
| mRedBlink | mGreenBlink | mBlueBlink.

(** A line written with [<< v << std::endl]: a number or a string. *)
Inductive Line :=
| Num (z : Z)
| Text (s : string).

Definition Sink_eq_dec (a b : Sink) : {a = b} + {a <> b}.
Proof. decide equality. apply Nat.eq_dec. Defined.

Definition Sink_eqb (a b : Sink) : bool :=
  if Sink_eq_dec a b then true else false.

Definition Trace := list (Sink * Line).

(** The lines a trace sent to one stream. *)
Definition linesOf (s : Sink) (tr : Trace) : list Line :=
  map snd (filter (fun w => Sink_eqb (fst w) s) tr).

(** The value a stream holds after a trace: the last line written to it. *)
Definition lastLine (s : Sink) (tr : Trace) : option Line :=
  last (map Some (linesOf s tr)) None.

(** ** The service object *)

Record Light := mkLight {
  mLcdBacklight_second : Z;        (* uint32_t: maximum panel brightness *)
  mKeyboardBacklight_second : Z;   (* uint32_t *)
  mButtonBacklight_size : nat;     (* number of button streams *)
  mLcdBacklightOn : bool;
  mSliderOpen : bool;
  mAttentionState : LightState;
  mBatteryState : LightState;
  mNotificationState : LightState;
  written : Trace                  (* every line written so far *)
}.

Definition set_mKeyboardBacklight_second (v : Z) (L : Light) : Light :=
  mkLight (mLcdBacklight_second L) v (mButtonBacklight_size L)
          (mLcdBacklightOn L) (mSliderOpen L) (mAttentionState L)
          (mBatteryState L) (mNotificationState L) (written L).

Definition set_mLcdBacklightOn (v : bool) (L : Light) : Light :=
  mkLight (mLcdBacklight_second L) (mKeyboardBacklight_second L)
          (mButtonBacklight_size L) v (mSliderOpen L) (mAttentionState L)
          (mBatteryState L) (mNotificationState L) (written L).

Definition set_mSliderOpen (v : bool) (L : Light) : Light :=
  mkLight (mLcdBacklight_second L) (mKeyboardBacklight_second L)
          (mButtonBacklight_size L) (mLcdBacklightOn L) v (mAttentionState L)
          (mBatteryState L) (mNotificationState L) (written L).

Definition set_mAttentionState (v : LightState) (L : Light) : Light :=
  mkLight (mLcdBacklight_second L) (mKeyboardBacklight_second L)
          (mButtonBacklight_size L) (mLcdBacklightOn L) (mSliderOpen L) v
          (mBatteryState L) (mNotificationState L) (written L).

Definition set_mBatteryState (v : LightState) (L : Light) : Light :=
  mkLight (mLcdBacklight_second L) (mKeyboardBacklight_second L)
          (mButtonBacklight_size L) (mLcdBacklightOn L) (mSliderOpen L)
          (mAttentionState L) v (mNotificationState L) (written L).

Definition set_mNotificationState (v : LightState) (L : Light) : Light :=
  mkLight (mLcdBacklight_second L) (mKeyboardBacklight_second L)
          (mButtonBacklight_size L) (mLcdBacklightOn L) (mSliderOpen L)
          (mAttentionState L) (mBatteryState L) v (written L).

(** [stream << v << std::endl] *)
Definition put (s : Sink) (v : Line) (L : Light) : Light :=
  mkLight (mLcdBacklight_second L) (mKeyboardBacklight_second L)
          (mButtonBacklight_size L) (mLcdBacklightOn L) (mSliderOpen L)
          (mAttentionState L) (mBatteryState L) (mNotificationState L)
          (written L ++ [(s, v)]).

(** Statements run one after the other on the object. *)
Definition andThen (f g : Light -> Light) : Light -> Light :=
  fun L => g (f L).
Notation "f ;; g" := (andThen f g) (at level 61, right associativity).

(** ** Helpers of the anonymous namespace *)

Definition RAMP_SIZE : Z := 8.
Definition RAMP_STEP_DURATION : Z := 50.
Definition BRIGHTNESS_RAMP : list Z := [0; 12; 25; 37; 50; 72; 85; 100].
Definition DEFAULT_MAX_BRIGHTNESS : Z := 255.

Definition rgbToBrightness (state : LightState) : Z :=
  let color := U32.and (color state) 0x00ffffff in
  U32.shr
    (U32.add
       (U32.add (U32.mul 77 (U32.and (U32.shr color 16) 0xff))
                (U32.mul 150 (U32.and (U32.shr color 8) 0xff)))
       (U32.mul 29 (U32.and color 0xff)))
    8.

Definition isLit (state : LightState) : bool :=
  negb (U32.and (color state) 0x00ffffff =? 0).

Definition to_string (z : Z) : string :=
  NilZero.string_of_int (Z.to_int z).

(** The loop over [BRIGHTNESS_RAMP]: [buf] and [pad] are its two locals. *)
Fixpoint getScaledDutyPcts_loop (ramp : list Z) (brightness : Z)
         (buf pad : string) : string :=
  match ramp with
  | [] => buf
  | i :: rest =>
      let buf := (buf ++ pad)%string in
      let buf := (buf ++ to_string (I32.div (I32.mul i brightness) 255))%string in
      getScaledDutyPcts_loop rest brightness buf ","%string
  end.

Definition getScaledDutyPcts (brightness : Z) : string :=
  getScaledDutyPcts_loop BRIGHTNESS_RAMP brightness EmptyString EmptyString.

(** ** Member functions of [Light] *)

Definition setKeyboardBacklightLocked : Light -> Light :=
  (fun L =>
     set_mKeyboardBacklight_second
       (if mSliderOpen L && mLcdBacklightOn L
        then DEFAULT_MAX_BRIGHTNESS else 0) L) ;;
  (fun L => put mKeyboardBacklight_first (Num (mKeyboardBacklight_second L)) L).

Definition onSliderChanged (open : bool) : Light -> Light :=
  set_mSliderOpen open ;;
  setKeyboardBacklightLocked.

Definition setLcdBacklight (state : LightState) : Light -> Light :=
  set_mLcdBacklightOn (negb (color state =? 0)) ;;
  (fun L =>
     let brightness := rgbToBrightness state in
     let brightness :=
       if negb (mLcdBacklight_second L =? DEFAULT_MAX_BRIGHTNESS)
       then U32.div (U32.mul brightness (mLcdBacklight_second L))
                    DEFAULT_MAX_BRIGHTNESS
       else brightness in
     put mLcdBacklight_first (Num brightness) L) ;;
  setKeyboardBacklightLocked.

(** [for (auto& button : mButtonBacklight) button << brightness << std::endl;] *)
Fixpoint putButtons (buttons : list nat) (brightness : Z) (L : Light) : Light :=
  match buttons with
  | [] => L
  | i :: rest => putButtons rest brightness (put (mButtonBacklight i) (Num brightness) L)
  end.

Definition setButtonsBacklight (state : LightState) : Light -> Light :=
  fun L =>
    let brightness := rgbToBrightness state in
    putButtons (seq 0 (mButtonBacklight_size L)) brightness L.

Definition setSpeakerLightLocked (state : LightState) : Light -> Light :=
  let colorRGB := color state in
  let '(onMs, offMs) :=
    match flashMode state with
    | TIMED => (flashOnMs state, flashOffMs state)
    | _ => (0, 0)
    end in
  let red := U32.and (U32.shr colorRGB 16) 0xff in
  let green := U32.and (U32.shr colorRGB 8) 0xff in
  let blue := U32.and colorRGB 0xff in
  let blink := (0 <? onMs) && (0 <? offMs) in
  if blink then
    let stepDuration := RAMP_STEP_DURATION in
    let pauseHi :=
      I32.sub onMs (I32.mul (I32.mul stepDuration RAMP_SIZE) 2) in
    let '(stepDuration, pauseHi) :=
      if onMs <? I32.mul (I32.mul stepDuration RAMP_SIZE) 2
      then (I32.div onMs (I32.mul RAMP_SIZE 2), 0)
      else (stepDuration, pauseHi) in
    (* Red *)
    put mRedStartIdx (Num 0) ;;
    put mRedDutyPcts (Text (getScaledDutyPcts red)) ;;
    put mRedPauseLo (Num offMs) ;;
    put mRedPauseHi (Num pauseHi) ;;
    put mRedRampStepMs (Num stepDuration) ;;
    (* Green *)
    put mGreenStartIdx (Num RAMP_SIZE) ;;
    put mGreenDutyPcts (Text (getScaledDutyPcts green)) ;;
    put mGreenPauseLo (Num offMs) ;;
    put mGreenPauseHi (Num pauseHi) ;;
    put mGreenRampStepMs (Num stepDuration) ;;
    (* Blue *)
    put mBlueStartIdx (Num (I32.mul RAMP_SIZE 2)) ;;
    put mBlueDutyPcts (Text (getScaledDutyPcts blue)) ;;
    put mBluePauseLo (Num offMs) ;;
    put mBluePauseHi (Num pauseHi) ;;
    put mBlueRampStepMs (Num stepDuration)
  else
    (if (red =? 0) && (green =? 0) && (blue =? 0)
     then put mRedBlink (Num 0) ;;
          put mGreenBlink (Num 0) ;;
          put mBlueBlink (Num 0)
     else (fun L => L)) ;;
    put mRedLed (Num red) ;;
    put mGreenLed (Num green) ;;
    put mBlueLed (Num blue).

Definition setSpeakerBatteryLightLocked : Light -> Light :=
  fun L =>
    if isLit (mNotificationState L) then
      setSpeakerLightLocked (mNotificationState L) L
    else if isLit (mAttentionState L) then
      setSpeakerLightLocked (mAttentionState L) L
    else if isLit (mBatteryState L) then
      setSpeakerLightLocked (mBatteryState L) L
    else
      (* Lights off *)
      (put mRedLed (Num 0) ;;
       put mGreenLed (Num 0) ;;
       put mBlueLed (Num 0) ;;
       put mRedBlink (Num 0) ;;
       put mGreenBlink (Num 0) ;;
       put mBlueBlink (Num 0)) L.

Definition setAttentionLight (state : LightState) : Light -> Light :=
  set_mAttentionState state ;;
  setSpeakerBatteryLightLocked.

Definition setBatteryLight (state : LightState) : Light -> Light :=
  set_mBatteryState state ;;
  setSpeakerBatteryLightLocked.

Definition with_color (c : Z) (s : LightState) : LightState :=
  mkLightState c (flashMode s) (flashOnMs s) (flashOffMs s) (brightnessMode s).

Definition setNotificationLight (state : LightState) : Light -> Light :=
  let localState := state in
  (* If a brightness has been applied by the user *)
  let brightness := U32.shr (U32.and (color localState) 0xff000000) 24 in
  let localState :=
    if (0 <? brightness) && (brightness <? 255) then
      (* Retrieve each of the RGB colors *)
      let color := U32.and (color localState) 0x00ffffff in
      let rgb0 := U32.and (U32.shr color 16) 0xff in
      let rgb1 := U32.and (U32.shr color 8) 0xff in
      let rgb2 := U32.and color 0xff in
      (* Apply the brightness level *)
      let rgb0 :=
        if 0 <? rgb0 then U32.div (U32.mul rgb0 brightness) 0xff else rgb0 in
      let rgb1 :=
        if 0 <? rgb1 then U32.div (U32.mul rgb1 brightness) 0xff else rgb1 in
      let rgb2 :=
        if 0 <? rgb2 then U32.div (U32.mul rgb2 brightness) 0xff else rgb2 in
      (* Update with the new color *)
      with_color (U32.add (U32.add (U32.shl rgb0 16) (U32.shl rgb1 8)) rgb2)
                 localState
    else localState in
  set_mNotificationState localState ;;
  setSpeakerBatteryLightLocked.

(** The handlers bound in the constructor. *)
Definition Handler := LightState -> Light -> Light.

(** [mLights.emplace]: a key that is present keeps its handler, a new key is
    added.  The container is declared in [Light.h]; it lists the key added
    last first.  Only which keys it holds is used below. *)
Definition emplace (k : LightType) (f : Handler)
           (m : list (LightType * Handler)) : list (LightType * Handler) :=
  if existsb (fun e => LightType_eqb k (fst e)) m then m else (k, f) :: m.

(** [mLights.find] *)
Fixpoint find (k : LightType) (m : list (LightType * Handler)) : option Handler :=
  match m with
  | [] => None
  | (k', f) :: rest => if LightType_eqb k k' then Some f else find k rest
  end.

(** The table the constructor fills; nothing changes it afterwards. *)
Definition mLights : list (LightType * Handler) :=
  emplace NOTIFICATIONS setNotificationLight
    (emplace BUTTONS setButtonsBacklight
       (emplace BATTERY setBatteryLight
          (emplace BACKLIGHT setLcdBacklight
             (emplace ATTENTION setAttentionLight [])))).

(** The constructor: both flags start false and nothing has been written.
    The three stored light states are not initialised by the constructor, so
    they are arguments here. *)
Definition Light_ctor (lcd_max keyboard_max : Z) (buttons : nat)
           (attention battery notification : LightState) : Light :=
  mkLight lcd_max keyboard_max buttons false false
          attention battery notification [].

Definition setLight (type : LightType) (state : LightState) (L : Light)
  : Status * Light :=
  match find type mLights with
  | None => (LIGHT_NOT_SUPPORTED, L)
  | Some handler => (SUCCESS, handler state L)
  end.

Definition getSupportedTypes : list LightType := map fst mLights.

(** ** The slider monitor *)

Record input_event := mkEvent { ev_type : Z; ev_code : Z; ev_value : Z }.
Definition EV_SW : Z := 0x05.
Definition SW_LID : Z := 0x00.

(** One round of the monitor loop on an event that was read. *)
Definition sliderMonitorEvent (ev : input_event) (L : Light) : Light :=
  if negb (ev_type ev =? EV_SW) || negb (ev_code ev =? SW_LID) then L
  else onSliderChanged (ev_value ev =? 0) L.

(** ** Runs of the service *)

(** What can happen to the object after construction: a request or a slider
    callback, one at a time under [mLock]. *)
Inductive Call :=
| CallSetLight (type : LightType) (state : LightState)
| CallSliderChanged (open : bool).

Definition call (c : Call) (L : Light) : Light :=
  match c with
  | CallSetLight type state => snd (setLight type state L)
  | CallSliderChanged open => onSliderChanged open L
  end.

Definition run (cs : list Call) (L : Light) : Light :=
  fold_left (fun L c => call c L) cs L.

(** The slider value of the last slider callback of a run, closed before any. *)
Fixpoint lastSlider (cs : list Call) (acc : bool) : bool :=
  match cs with
  | [] => acc
  | CallSliderChanged open :: rest => lastSlider rest open
  | _ :: rest => lastSlider rest acc
  end.

(** The color of the last BACKLIGHT request of a run, 0 before any. *)
Fixpoint lastLcdColor (cs : list Call) (acc : Z) : Z :=
  match cs with
  | [] => acc
  | CallSetLight BACKLIGHT state :: rest => lastLcdColor rest (color state)
  | _ :: rest => lastLcdColor rest acc
  end.

(** The lines one step appended to the trace. *)
Definition emitted (f : Light -> Light) (L : Light) : Trace :=
  skipn (List.length (written L)) (written (f L)).

(** The three colour channels of an ARGB word, by division. *)
Definition chanR (c : Z) : Z := (c / 65536) mod 256.
Definition chanG (c : Z) : Z := (c / 256) mod 256.
Definition chanB (c : Z) : Z := c mod 256.
Definition chanA (c : Z) : Z := (c / 16777216) mod 256.

(** Appending lines to the trace and touching nothing else: what a block of
    stream writes does to the object. *)
Definition appendLines (tr : Trace) (L : Light) : Light :=
  mkLight (mLcdBacklight_second L) (mKeyboardBacklight_second L)
          (mButtonBacklight_size L) (mLcdBacklightOn L) (mSliderOpen L)
          (mAttentionState L) (mBatteryState L) (mNotificationState L)
          (written L ++ tr).

(** The condition [blink] of [setSpeakerLightLocked]. *)
Definition blinks (state : LightState) : bool :=
  match flashMode state with
  | TIMED => (0 <? flashOnMs state) && (0 <? flashOffMs state)
  | _ => false
  end.

(** The source that drives the shared LED, if any: the first lit one in the
    order of the tests of [setSpeakerBatteryLightLocked]. *)
Definition winner (L : Light) : option LightState :=
  if isLit (mNotificationState L) then Some (mNotificationState L)
  else if isLit (mAttentionState L) then Some (mAttentionState L)
  else if isLit (mBatteryState L) then Some (mBatteryState L)
  else None.

(** The output mode a render puts the shared LED in. *)
Inductive Mode := ModeOff | ModeSteady | ModeBlink.

Definition renderMode (L : Light) : Mode :=
  match winner L with
  | None => ModeOff
  | Some st => if blinks st then ModeBlink else ModeSteady
  end.

Definition ledSinks : list Sink := [mRedLed; mGreenLed; mBlueLed].
Definition blinkSinks : list Sink := [mRedBlink; mGreenBlink; mBlueBlink].
Definition rampSinks : list Sink :=
  [mRedStartIdx; mRedDutyPcts; mRedPauseLo; mRedPauseHi; mRedRampStepMs;
   mGreenStartIdx; mGreenDutyPcts; mGreenPauseLo; mGreenPauseHi;
   mGreenRampStepMs;
   mBlueStartIdx; mBlueDutyPcts; mBluePauseLo; mBluePauseHi; mBlueRampStepMs].

(** Every stream of the shared RGB LED. *)
Definition rgbLedSinks : list Sink := ledSinks ++ blinkSinks ++ rampSinks.

(** The lines of the "lights off" branch. *)
Definition lightsOff : Trace :=
  [(mRedLed, Num 0); (mGreenLed, Num 0); (mBlueLed, Num 0);
   (mRedBlink, Num 0); (mGreenBlink, Num 0); (mBlueBlink, Num 0)].

(** A render zeroes the blink-enable flags when the lines it writes leave 0
    in each of the three blink-enable streams. *)
Definition zeroesBlinkFlags (tr : Trace) : Prop :=
  Forall (fun s => lastLine s tr = Some (Num 0)) blinkSinks.

(** Sample values. *)
Definition darkState : LightState := mkLightState 0 NONE 0 0 USER.
Definition redBlinking : LightState := mkLightState 0x00FF0000 TIMED 1000 500 USER.
Definition redSteady : LightState := mkLightState 0x00FF0000 NONE 0 0 USER.
Definition greenSteady : LightState := mkLightState 0x0000FF00 NONE 0 0 USER.
Definition blueSteady : LightState := mkLightState 0x000000FF NONE 0 0 USER.
Definition freshLight : Light :=
  Light_ctor 255 255 2 darkState darkState darkState.

(** The calls that end by rendering the keyboard backlight. *)
Definition touchesKeyboard (c : Call) : bool :=
  match c with
  | CallSetLight BACKLIGHT _ => true
  | CallSliderChanged _ => true
  | _ => false
  end.

Definition whiteSteady : LightState := mkLightState 0xFFFFFFFF NONE 0 0 USER.
Definition alphaOnly : LightState := mkLightState 0xFF000000 NONE 0 0 USER.
Definition redHalf : LightState := mkLightState 0x80FF0000 NONE 0 0 USER.
Definition redShortBlink : LightState := mkLightState 0x00FF0000 TIMED 100 500 USER.

Definition allLit : Light :=
  Light_ctor 255 255 2 greenSteady blueSteady redBlinking.
Definition attentionAndBatteryLit : Light :=
  Light_ctor 255 255 2 greenSteady blueSteady darkState.
Definition attentionLit : Light :=
  Light_ctor 255 255 2 greenSteady darkState darkState.
Definition sliderOpenLight : Light := onSliderChanged true freshLight.
Definition afterBlink : Light :=
  call (CallSetLight NOTIFICATIONS redBlinking) freshLight.
Definition afterSteady : Light :=
  call (CallSetLight NOTIFICATIONS redSteady) afterBlink.
Definition afterBlinkAgain : Light :=
  call (CallSetLight NOTIFICATIONS redBlinking) afterSteady.

(** ** The rest of the translation unit *)

(** The eight duty percentages [getScaledDutyPcts] prints, as numbers. *)
Definition scaledDutyPcts (brightness : Z) : list Z :=
  map (fun i => I32.div (I32.mul i brightness) 255) BRIGHTNESS_RAMP.

(** What the input devices answer to [openInputDeviceByName].  The list
    holds one entry for each of /dev/input/event0, event1, ... up to the
    first number that cannot be opened: the name EVIOCGNAME put in the
    buffer, or [None] when the ioctl did not return a positive length. *)
Definition InputDevices := list (option string).

(** The system calls of the search; a descriptor is named by the number of
    the device it was opened on. *)
Inductive Syscall :=
| SysOpenFailed (n : nat)
| SysOpen (n : nat)
| SysClose (n : nat).

(** The loop of [openInputDeviceByName] from device number [n] on: the
    descriptor returned ([None] for -1) and the calls made. *)
Fixpoint openInputDeviceByName_from (name : string) (devs : InputDevices)
         (n : nat) : option nat * list Syscall :=
  match devs with
  | [] => (None, [SysOpenFailed n])      (* Fail: out of devices to try *)
  | devname :: rest =>
      let matched :=
        match devname with
        | Some d => String.eqb d name
        | None => false
        end in
      if matched then (Some n, [SysOpen n])      (* Success *)
      else
        let '(fd, calls) := openInputDeviceByName_from name rest (S n) in
        (fd, SysOpen n :: SysClose n :: calls)
  end.

Definition openInputDeviceByName (name : string) (devs : InputDevices)
  : option nat * list Syscall :=
  openInputDeviceByName_from name devs 0.

(** The events the monitor loop keeps. *)
Definition isLidEvent (ev : input_event) : bool :=
  (ev_type ev =? EV_SW) && (ev_code ev =? SW_LID).

(** The monitor loop on the events it reads, one round each.  Reopening the
    device after a failed read does not touch the object. *)
Definition sliderMonitorEvents (evs : list input_event) (L : Light) : Light :=
  fold_left (fun L ev => sliderMonitorEvent ev L) evs L.

(** The slider value after a list of events: that of the last lid event. *)
Fixpoint lastLid (evs : list input_event) (acc : bool) : bool :=
  match evs with
  | [] => acc
  | ev :: rest => lastLid rest (if isLidEvent ev then ev_value ev =? 0 else acc)
  end.

(** The state [setNotificationLight] keeps for a request. *)
Definition scaledNotification (st : LightState) : LightState :=
  let c := color st in
  let b := chanA c in
  if (0 <? b) && (b <? 255)
  then with_color (chanR c * b / 255 * 65536 + chanG c * b / 255 * 256
                   + chanB c * b / 255) st
  else st.

(** The last state a run stored for each source. *)
Fixpoint lastAttention (cs : list Call) (acc : LightState) : LightState :=
  match cs with
  | [] => acc
  | CallSetLight ATTENTION st :: rest => lastAttention rest st
  | _ :: rest => lastAttention rest acc
  end.

Fixpoint lastBattery (cs : list Call) (acc : LightState) : LightState :=
  match cs with
  | [] => acc
  | CallSetLight BATTERY st :: rest => lastBattery rest st
  | _ :: rest => lastBattery rest acc
  end.

Fixpoint lastNotification (cs : list Call) (acc : LightState) : LightState :=
  match cs with
  | [] => acc
  | CallSetLight NOTIFICATIONS st :: rest =>
      lastNotification rest (scaledNotification st)
  | _ :: rest => lastNotification rest acc
  end.

(** Calls that render the keyboard occur in a run. *)
Definition rendersKeyboard (cs : list Call) : bool :=
  existsb touchesKeyboard cs.

(** The streams of the shared LED, the button streams apart. *)
Definition isRgbLedSink (s : Sink) : bool :=
  existsb (Sink_eqb s) rgbLedSinks.

Definition isButtonSink (s : Sink) : bool :=
  match s with mButtonBacklight _ => true | _ => false end.

(** What every line written respects: blink-enable lines are 0, keyboard
    lines are 0 or 255, LED and button brightness lines are bytes, the ramp
    start indices are 0, 8 and 16. *)
Definition lineOk (w : Sink * Line) : Prop :=
  match w with
  | (mRedBlink, v) | (mGreenBlink, v) | (mBlueBlink, v) => v = Num 0
  | (mKeyboardBacklight_first, v) => v = Num 0 \/ v = Num 255
  | (mRedLed, v) | (mGreenLed, v) | (mBlueLed, v) | (mButtonBacklight _, v) =>
      exists z, v = Num z /\ 0 <= z <= 255
  | (mRedStartIdx, v) => v = Num 0
  | (mGreenStartIdx, v) => v = Num 8
  | (mBlueStartIdx, v) => v = Num 16
  | (mRedDutyPcts, v) | (mGreenDutyPcts, v) | (mBlueDutyPcts, v) =>
      exists b, v = Text (getScaledDutyPcts b) /\ 0 <= b <= 255
  | _ => True
  end.

Definition gpioKeys : string := "gpio-keys".
Definition lidClosed : input_event := mkEvent EV_SW SW_LID 1.
Definition lidOpen : input_event := mkEvent EV_SW SW_LID 0.
Definition synReport : input_event := mkEvent 0 0 0.

Definition hardwareRed : LightState :=
  mkLightState 0x00FF0000 HARDWARE 1000 500 USER.
Definition dimWhite : LightState := mkLightState 0x01FEFEFE NONE 0 0 USER.
Definition sampleDevices : InputDevices :=
  [Some "pmic_pwrkey"%string; None; Some gpioKeys; Some gpioKeys].
Definition widePanel : Light :=
  Light_ctor 1023 255 2 darkState darkState darkState.
Definition noButtons : Light :=
  Light_ctor 255 255 0 darkState darkState darkState.

(** * Properties *)

(** ** Bytes and words *)

Lemma land_ff (x : Z) : Z.land x 0xff = x mod 256.
Proof. change 0xff with (Z.ones 8). now rewrite Z.land_ones by lia. Qed.

Lemma land_low24 (x : Z) : Z.land x 0x00ffffff = x mod 16777216.
Proof. change 0x00ffffff with (Z.ones 24). now rewrite Z.land_ones by lia. Qed.

Lemma shr_div (x k : Z) : 0 <= k -> U32.shr x k = x / 2 ^ k.
Proof. intros Hk. unfold U32.shr. now rewrite Z.shiftr_div_pow2. Qed.

Lemma byte_R (c : Z) : U32.and (U32.shr c 16) 0xff = chanR c.
Proof. unfold U32.and. now rewrite land_ff, shr_div by lia. Qed.

Lemma byte_G (c : Z) : U32.and (U32.shr c 8) 0xff = chanG c.
Proof. unfold U32.and. now rewrite land_ff, shr_div by lia. Qed.

Lemma byte_B (c : Z) : U32.and c 0xff = chanB c.
Proof. unfold U32.and. now rewrite land_ff. Qed.

Lemma byte_A (c : Z) : U32.shr (U32.and c 0xff000000) 24 = chanA c.
Proof.
  unfold U32.and, chanA. rewrite shr_div by lia.
  change 0xff000000 with (Z.shiftl (Z.ones 8) 24).
  rewrite <- (Z.shiftr_div_pow2 _ 24) by lia.
  rewrite Z.shiftr_land, Z.shiftr_shiftl_l by lia.
  change (Z.shiftl (Z.ones 8) (24 - 24)) with (Z.ones 8).
  rewrite Z.land_ones by lia. now rewrite Z.shiftr_div_pow2 by lia.
Qed.

Lemma chanR_range (c : Z) : 0 <= chanR c < 256.
Proof. unfold chanR. apply Z.mod_pos_bound. lia. Qed.

Lemma chanG_range (c : Z) : 0 <= chanG c < 256.
Proof. unfold chanG. apply Z.mod_pos_bound. lia. Qed.

Lemma chanB_range (c : Z) : 0 <= chanB c < 256.
Proof. unfold chanB. apply Z.mod_pos_bound. lia. Qed.

Lemma chanA_range (c : Z) : 0 <= chanA c < 256.
Proof. unfold chanA. apply Z.mod_pos_bound. lia. Qed.

(** Masking the alpha byte away keeps the three colour channels. *)
Lemma chan_low24 (c : Z) :
  chanR (c mod 16777216) = chanR c /\
  chanG (c mod 16777216) = chanG c /\
  chanB (c mod 16777216) = chanB c.
Proof.
  unfold chanR, chanG, chanB. repeat split; Z.div_mod_to_equations; lia.
Qed.

(** A word is the sum of its four bytes when it fits 32 bits; its low 24
    bits are the sum of the three colour channels in any case. *)
Lemma low24_channels (c : Z) :
  c mod 16777216 = chanR c * 65536 + chanG c * 256 + chanB c.
Proof. unfold chanR, chanG, chanB. Z.div_mod_to_equations. lia. Qed.

Lemma u32_small (z : Z) : 0 <= z < 4294967296 -> U32.wrap z = z.
Proof. intros H. unfold U32.wrap, U32.modulus. now apply Z.mod_small. Qed.

Lemma i32_small (z : Z) : - 2147483648 <= z < 2147483648 -> I32.wrap z = z.
Proof.
  intros H. unfold I32.wrap, I32.half.
  change (2 ^ 31) with 2147483648. change (2 ^ 32) with 4294967296.
  rewrite Z.mod_small; lia.
Qed.

(** [isLit] looks at the three colour channels only. *)
Lemma isLit_channels (st : LightState) :
  isLit st = negb ((chanR (color st) =? 0) && (chanG (color st) =? 0)
                   && (chanB (color st) =? 0)).
Proof.
  unfold isLit, U32.and. rewrite land_low24, low24_channels.
  pose proof (chanR_range (color st)). pose proof (chanG_range (color st)).
  pose proof (chanB_range (color st)).
  destruct (chanR (color st) =? 0) eqn:ER, (chanG (color st) =? 0) eqn:EG,
           (chanB (color st) =? 0) eqn:EB; cbn [andb negb];
    rewrite ?Z.eqb_eq, ?Z.eqb_neq in *;
    try (apply negb_true_iff, Z.eqb_neq; lia);
    apply negb_false_iff, Z.eqb_eq; lia.
Qed.

(** ** Luminance *)

Lemma rgbToBrightness_formula (st : LightState) :
  rgbToBrightness st =
  (77 * chanR (color st) + 150 * chanG (color st) + 29 * chanB (color st)) / 256.
Proof.
  unfold rgbToBrightness. rewrite byte_R, byte_G, byte_B.
  unfold U32.and at 1 2 3. rewrite land_low24.
  destruct (chan_low24 (color st)) as (-> & -> & ->).
  pose proof (chanR_range (color st)). pose proof (chanG_range (color st)).
  pose proof (chanB_range (color st)).
  unfold U32.add, U32.mul.
  rewrite (u32_small (77 * _)), (u32_small (150 * _)), (u32_small (29 * _))
    by lia.
  rewrite (u32_small (77 * _ + _)) by lia.
  rewrite u32_small by lia.
  now rewrite shr_div by lia.
Qed.

(** C5: the luminance used for the LCD, keyboard and button brightness is
    (77*R + 150*G + 29*B) >> 8 on the channels of the colour, it does not
    depend on the alpha byte (the colour and the colour masked to its low 24
    bits have the same luminance), and it fits a byte. *)
Theorem C5_luminance_weights_ignore_alpha (st : LightState) :
  rgbToBrightness st =
    Z.shiftr (77 * chanR (color st) + 150 * chanG (color st)
              + 29 * chanB (color st)) 8
  /\ rgbToBrightness st =
     rgbToBrightness (with_color (Z.land (color st) 0x00ffffff) st)
  /\ 0 <= rgbToBrightness st <= 255.
Proof.
  rewrite !rgbToBrightness_formula. cbn [color with_color].
  rewrite land_low24.
  destruct (chan_low24 (color st)) as (-> & -> & ->).
  pose proof (chanR_range (color st)). pose proof (chanG_range (color st)).
  pose proof (chanB_range (color st)).
  repeat split.
  - now rewrite Z.shiftr_div_pow2 by lia.
  - apply Z.div_pos; lia.
  - apply Z.lt_succ_r, Z.div_lt_upper_bound; lia.
Qed.

(** ** Traces *)

Lemma put_appendLines (s : Sink) (v : Line) (L : Light) :
  put s v L = appendLines [(s, v)] L.
Proof. reflexivity. Qed.

Lemma appendLines_appendLines (t1 t2 : Trace) (L : Light) :
  appendLines t2 (appendLines t1 L) = appendLines (t1 ++ t2) L.
Proof. unfold appendLines; cbn. now rewrite app_assoc. Qed.

Lemma appendLines_nil (L : Light) : appendLines [] L = L.
Proof. destruct L; unfold appendLines; cbn. now rewrite app_nil_r. Qed.

Lemma skipn_length_app {A} (l t : list A) : skipn (List.length l) (l ++ t) = t.
Proof. induction l; cbn; auto. Qed.

Lemma emitted_appendLines (f : Light -> Light) (tr : Trace) (L : Light) :
  f L = appendLines tr L -> emitted f L = tr.
Proof.
  intros E. unfold emitted. rewrite E. cbn. apply skipn_length_app.
Qed.

Lemma emitted_appendLines_on (f : Light -> Light) (tr : Trace) (L L0 : Light) :
  written L0 = written L -> f L = appendLines tr L0 -> emitted f L = tr.
Proof.
  intros W E. unfold emitted. rewrite E. cbn. rewrite W.
  apply skipn_length_app.
Qed.

Lemma linesOf_app (s : Sink) (t1 t2 : Trace) :
  linesOf s (t1 ++ t2) = linesOf s t1 ++ linesOf s t2.
Proof. unfold linesOf. now rewrite filter_app, map_app. Qed.

Lemma last_app_cons {A} (l : list A) (x : A) (t : list A) (d : A) :
  last (l ++ x :: t) d = last (x :: t) d.
Proof.
  induction l as [|y l IH]; [reflexivity|].
  cbn [app]. destruct (l ++ x :: t) eqn:E.
  - destruct l; discriminate.
  - rewrite <- IH. reflexivity.
Qed.

(** The value a stream holds after more lines: the last new line for it, or
    the old value when there is none. *)
Lemma lastLine_app (s : Sink) (t1 t2 : Trace) :
  lastLine s (t1 ++ t2) =
  match lastLine s t2 with Some v => Some v | None => lastLine s t1 end.
Proof.
  unfold lastLine. rewrite linesOf_app, map_app.
  destruct (linesOf s t2) as [|v l] eqn:E.
  - cbn. now rewrite app_nil_r.
  - cbn [map]. rewrite last_app_cons.
    assert (H : exists w, last (Some v :: map Some l) None = Some w).
    { clear. revert v. induction l as [|a l IH]; intros v.
      - now exists v.
      - destruct (IH a) as [w Hw]. exists w. cbn [map]. exact Hw. }
    destruct H as [w ->]. reflexivity.
Qed.

Ltac flatten_writes :=
  unfold andThen; rewrite ?put_appendLines, ?appendLines_appendLines;
  cbn [app].

(** ** The shared LED *)

(** Rendering one state appends lines that depend on the state only. *)
Lemma setSpeakerLightLocked_appends (st : LightState) :
  exists tr, forall L, setSpeakerLightLocked st L = appendLines tr L.
Proof.
  unfold setSpeakerLightLocked.
  destruct (match flashMode st with
            | TIMED => (flashOnMs st, flashOffMs st) | _ => (0, 0) end)
    as [onMs offMs].
  destruct ((0 <? onMs) && (0 <? offMs)).
  - destruct (if onMs <? I32.mul (I32.mul RAMP_STEP_DURATION RAMP_SIZE) 2
              then (I32.div onMs (I32.mul RAMP_SIZE 2), 0)
              else (RAMP_STEP_DURATION,
                    I32.sub onMs (I32.mul (I32.mul RAMP_STEP_DURATION RAMP_SIZE) 2)))
      as [stepDuration pauseHi].
    eexists; intros L. flatten_writes. reflexivity.
  - destruct ((U32.and (U32.shr (color st) 16) 255 =? 0)
              && (U32.and (U32.shr (color st) 8) 255 =? 0)
              && (U32.and (color st) 255 =? 0)).
    + eexists; intros L. flatten_writes. reflexivity.
    + eexists; intros L. unfold andThen.
      rewrite <- (appendLines_nil L) at 1. flatten_writes. reflexivity.
Qed.

Lemma setSpeakerBatteryLightLocked_winner (L : Light) :
  setSpeakerBatteryLightLocked L =
  match winner L with
  | Some st => setSpeakerLightLocked st L
  | None => appendLines lightsOff L
  end.
Proof.
  unfold setSpeakerBatteryLightLocked, winner.
  destruct (isLit (mNotificationState L)); [reflexivity|].
  destruct (isLit (mAttentionState L)); [reflexivity|].
  destruct (isLit (mBatteryState L)); [reflexivity|].
  flatten_writes. reflexivity.
Qed.

Lemma setSpeakerBatteryLightLocked_appends (L : Light) :
  exists tr, setSpeakerBatteryLightLocked L = appendLines tr L.
Proof.
  rewrite setSpeakerBatteryLightLocked_winner.
  destruct (winner L) as [st|].
  - destruct (setSpeakerLightLocked_appends st) as [tr H]. now exists tr.
  - now exists lightsOff.
Qed.

(** What a render writes is decided by the winning source alone. *)
Lemma emitted_render_winner (L L' : Light) :
  winner L = winner L' ->
  emitted setSpeakerBatteryLightLocked L =
  emitted setSpeakerBatteryLightLocked L'.
Proof.
  intros E.
  assert (H : exists tr, setSpeakerBatteryLightLocked L = appendLines tr L
                    /\ setSpeakerBatteryLightLocked L' = appendLines tr L').
  { rewrite !setSpeakerBatteryLightLocked_winner, <- E.
    destruct (winner L) as [st|].
    - destruct (setSpeakerLightLocked_appends st) as [tr H]. now exists tr.
    - now exists lightsOff. }
  destruct H as (tr & H1 & H2).
  now rewrite (emitted_appendLines _ _ _ H1), (emitted_appendLines _ _ _ H2).
Qed.

(** C1: a shared-LED render renders the first lit source in the order
    notification, attention, battery, where lit means that the colour masked
    to its low 24 bits is not zero.  With notification lit (so also with all
    three lit) the render is the render of the notification state and writes
    the same lines whatever the attention and battery states are, dark ones
    included; with notification dark and attention lit (so also with only
    attention and battery lit) it is the render of the attention state and
    writes the same lines whatever the battery state is; with only battery
    lit it is the render of the battery state. *)
Theorem C1_render_follows_priority (L : Light) :
  let n := mNotificationState L in
  let a := mAttentionState L in
  let b := mBatteryState L in
  (isLit n = true ->
     setSpeakerBatteryLightLocked L = setSpeakerLightLocked n L
     /\ forall a' b',
          emitted setSpeakerBatteryLightLocked L =
          emitted setSpeakerBatteryLightLocked
                  (set_mAttentionState a' (set_mBatteryState b' L)))
  /\ (isLit n = false -> isLit a = true ->
     setSpeakerBatteryLightLocked L = setSpeakerLightLocked a L
     /\ forall b',
          emitted setSpeakerBatteryLightLocked L =
          emitted setSpeakerBatteryLightLocked (set_mBatteryState b' L))
  /\ (isLit n = false -> isLit a = false -> isLit b = true ->
     setSpeakerBatteryLightLocked L = setSpeakerLightLocked b L).
Proof.
  cbv zeta. split; [|split].
  - intros Hn. split.
    + rewrite setSpeakerBatteryLightLocked_winner.
      unfold winner. now rewrite Hn.
    + intros a' b'. apply emitted_render_winner.
      unfold winner; cbn. now rewrite Hn.
  - intros Hn Ha. split.
    + rewrite setSpeakerBatteryLightLocked_winner.
      unfold winner. now rewrite Hn, Ha.
    + intros b'. apply emitted_render_winner.
      unfold winner; cbn. now rewrite Hn, Ha.
  - intros Hn Ha Hb. rewrite setSpeakerBatteryLightLocked_winner.
    unfold winner. now rewrite Hn, Ha, Hb.
Qed.

(** The lines of the blink branch, for a ramp step and a hold time. *)
Lemma setSpeakerLightLocked_blink (st : LightState) (L : Light) :
  blinks st = true -> I32.valid (flashOnMs st) ->
  let onMs := flashOnMs st in
  let offMs := flashOffMs st in
  let stepDuration := if 800 <=? onMs then 50 else onMs / 16 in
  let pauseHi := if 800 <=? onMs then onMs - 800 else 0 in
  setSpeakerLightLocked st L =
  appendLines
    [(mRedStartIdx, Num 0);
     (mRedDutyPcts, Text (getScaledDutyPcts (chanR (color st))));
     (mRedPauseLo, Num offMs);
     (mRedPauseHi, Num pauseHi);
     (mRedRampStepMs, Num stepDuration);
     (mGreenStartIdx, Num 8);
     (mGreenDutyPcts, Text (getScaledDutyPcts (chanG (color st))));
     (mGreenPauseLo, Num offMs);
     (mGreenPauseHi, Num pauseHi);
     (mGreenRampStepMs, Num stepDuration);
     (mBlueStartIdx, Num 16);
     (mBlueDutyPcts, Text (getScaledDutyPcts (chanB (color st))));
     (mBluePauseLo, Num offMs);
     (mBluePauseHi, Num pauseHi);
     (mBlueRampStepMs, Num stepDuration)] L.
Proof.
  unfold blinks, setSpeakerLightLocked, I32.valid, I32.half.
  change (2 ^ 31) with 2147483648.
  intros Hb Hv. cbv zeta.
  destruct (flashMode st); try discriminate.
  rewrite Hb.
  apply andb_true_iff in Hb. destruct Hb as [Hon Hoff].
  apply Z.ltb_lt in Hon.
  rewrite byte_R, byte_G, byte_B.
  change (I32.mul (I32.mul RAMP_STEP_DURATION RAMP_SIZE) 2) with 800.
  change (I32.mul RAMP_SIZE 2) with 16.
  change RAMP_SIZE with 8. change RAMP_STEP_DURATION with 50.
  destruct (Z.ltb_spec (flashOnMs st) 800) as [Hlt|Hge].
  - destruct (Z.leb_spec 800 (flashOnMs st)) as [H|_]; [lia|].
    unfold I32.div. rewrite Z.quot_div_nonneg by lia.
    flatten_writes. reflexivity.
  - destruct (Z.leb_spec 800 (flashOnMs st)) as [_|H]; [|lia].
    unfold I32.sub. rewrite i32_small by lia.
    flatten_writes. reflexivity.
Qed.

(** The lines of the steady branch for a lit state. *)
Lemma setSpeakerLightLocked_steady (st : LightState) (L : Light) :
  blinks st = false -> isLit st = true ->
  setSpeakerLightLocked st L =
  appendLines [(mRedLed, Num (chanR (color st)));
               (mGreenLed, Num (chanG (color st)));
               (mBlueLed, Num (chanB (color st)))] L.
Proof.
  intros Hb Hl. rewrite isLit_channels in Hl. apply negb_true_iff in Hl.
  unfold setSpeakerLightLocked.
  rewrite byte_R, byte_G, byte_B, Hl.
  assert (E : (let '(onMs, offMs) :=
                 match flashMode st with
                 | TIMED => (flashOnMs st, flashOffMs st) | _ => (0, 0) end in
               (0 <? onMs) && (0 <? offMs)) = false).
  { unfold blinks in Hb. destruct (flashMode st); auto. }
  destruct (match flashMode st with
            | TIMED => (flashOnMs st, flashOffMs st) | _ => (0, 0) end)
    as [onMs offMs].
  rewrite E. unfold andThen.
  rewrite <- (appendLines_nil L) at 1. flatten_writes. reflexivity.
Qed.

(** C3: for a state with flash mode TIMED and positive on and off times (the
    on time being an [int]), the blink branch writes ramp step 50 and
    pause-high [flashOnMs - 50*16] when 50*16 does not exceed the on time,
    and ramp step [flashOnMs / 16] and pause-high 0 otherwise, the same on
    the three channels; pause-low is the off time on the three channels.
    The same lines are what a shared-LED render writes when that state
    wins. *)
Theorem C3_blink_ramp_timing (st : LightState) (L : Light) :
  flashMode st = TIMED -> 0 < flashOnMs st -> 0 < flashOffMs st ->
  I32.valid (flashOnMs st) ->
  let onMs := flashOnMs st in
  let offMs := flashOffMs st in
  let stepDuration := if 50 * 16 <=? onMs then 50 else onMs / 16 in
  let pauseHi := if 50 * 16 <=? onMs then onMs - 50 * 16 else 0 in
  let lines :=
    [(mRedStartIdx, Num 0);
     (mRedDutyPcts, Text (getScaledDutyPcts (chanR (color st))));
     (mRedPauseLo, Num offMs);
     (mRedPauseHi, Num pauseHi);
     (mRedRampStepMs, Num stepDuration);
     (mGreenStartIdx, Num 8);
     (mGreenDutyPcts, Text (getScaledDutyPcts (chanG (color st))));
     (mGreenPauseLo, Num offMs);
     (mGreenPauseHi, Num pauseHi);
     (mGreenRampStepMs, Num stepDuration);
     (mBlueStartIdx, Num 16);
     (mBlueDutyPcts, Text (getScaledDutyPcts (chanB (color st))));
     (mBluePauseLo, Num offMs);
     (mBluePauseHi, Num pauseHi);
     (mBlueRampStepMs, Num stepDuration)] in
  emitted (setSpeakerLightLocked st) L = lines
  /\ (winner L = Some st -> emitted setSpeakerBatteryLightLocked L = lines).
Proof.
  intros Hm Hon Hoff Hv. cbv zeta.
  assert (Hb : blinks st = true).
  { unfold blinks. rewrite Hm. apply andb_true_iff.
    split; now apply Z.ltb_lt. }
  pose proof (setSpeakerLightLocked_blink st L Hb Hv) as E. cbv zeta in E.
  change (50 * 16) with 800.
  split.
  - now apply emitted_appendLines.
  - intros Hw. apply emitted_appendLines.
    now rewrite setSpeakerBatteryLightLocked_winner, Hw.
Qed.

(** The blink branch writes the fifteen ramp streams, in this order, and no
    other stream. *)
Lemma setSpeakerLightLocked_blink_sinks (st : LightState) :
  blinks st = true ->
  exists tr, map fst tr = rampSinks
             /\ forall L, setSpeakerLightLocked st L = appendLines tr L.
Proof.
  intros Hb. unfold blinks in Hb. unfold setSpeakerLightLocked.
  destruct (flashMode st); try discriminate. rewrite Hb.
  destruct (if flashOnMs st <? I32.mul (I32.mul RAMP_STEP_DURATION RAMP_SIZE) 2
            then (I32.div (flashOnMs st) (I32.mul RAMP_SIZE 2), 0)
            else (RAMP_STEP_DURATION,
                  I32.sub (flashOnMs st)
                          (I32.mul (I32.mul RAMP_STEP_DURATION RAMP_SIZE) 2)))
    as [stepDuration pauseHi].
  eexists; split; [|intros L; flatten_writes; reflexivity].
  reflexivity.
Qed.

(** ** The notification brightness *)

Lemma scale_range (x b : Z) :
  0 <= x < 256 -> 0 <= b < 256 -> 0 <= x * b / 255 < 256.
Proof.
  intros Hx Hb. assert (0 <= x * b <= 255 * 255) by nia.
  split; [apply Z.div_pos; lia|].
  apply Z.div_lt_upper_bound; lia.
Qed.

(** The guarded scaling of one channel; a zero channel scales to zero. *)
Lemma scale_guard (x b : Z) :
  0 <= x < 256 -> 0 <= b < 256 ->
  (if 0 <? x then U32.div (U32.mul x b) 0xff else x) = x * b / 255.
Proof.
  intros Hx Hb. destruct (Z.ltb_spec 0 x) as [H|H].
  - unfold U32.div, U32.mul. rewrite u32_small by nia. reflexivity.
  - assert (x = 0) by lia. subst x. reflexivity.
Qed.

Lemma pack_rgb (r g b : Z) :
  0 <= r < 256 -> 0 <= g < 256 -> 0 <= b < 256 ->
  U32.add (U32.add (U32.shl r 16) (U32.shl g 8)) b = r * 65536 + g * 256 + b.
Proof.
  intros Hr Hg Hb. unfold U32.add, U32.shl.
  rewrite !Z.shiftl_mul_pow2 by lia.
  change (2 ^ 16) with 65536. change (2 ^ 8) with 256.
  rewrite (u32_small (r * _)), (u32_small (g * _)) by lia.
  rewrite (u32_small (r * _ + _)) by lia.
  now rewrite u32_small by lia.
Qed.

Lemma chan_pack (r g b : Z) :
  0 <= r < 256 -> 0 <= g < 256 -> 0 <= b < 256 ->
  chanR (r * 65536 + g * 256 + b) = r
  /\ chanG (r * 65536 + g * 256 + b) = g
  /\ chanB (r * 65536 + g * 256 + b) = b
  /\ chanA (r * 65536 + g * 256 + b) = 0.
Proof.
  intros Hr Hg Hb. unfold chanR, chanG, chanB, chanA.
  repeat split; Z.div_mod_to_equations; lia.
Qed.

(** The state [setNotificationLight] stores: the request itself, or, for a
    top byte strictly between 0 and 255, the request with its colour
    replaced by the three scaled channels (and a zero top byte). *)
Lemma setNotificationLight_stores (st : LightState) (L : Light) :
  let c := color st in
  let b := chanA c in
  setNotificationLight st L =
  setSpeakerBatteryLightLocked
    (set_mNotificationState
       (if (0 <? b) && (b <? 255)
        then with_color (chanR c * b / 255 * 65536 + chanG c * b / 255 * 256
                         + chanB c * b / 255) st
        else st) L).
Proof.
  cbv zeta. unfold setNotificationLight. cbv zeta. unfold andThen.
  rewrite byte_A, byte_R, byte_G, byte_B.
  unfold U32.and. rewrite land_low24.
  destruct (chan_low24 (color st)) as (-> & -> & ->).
  pose proof (chanR_range (color st)) as HR.
  pose proof (chanG_range (color st)) as HG.
  pose proof (chanB_range (color st)) as HB.
  pose proof (chanA_range (color st)) as HA.
  destruct ((0 <? chanA (color st)) && (chanA (color st) <? 255));
    [|reflexivity].
  rewrite !scale_guard by assumption.
  rewrite pack_rgb by (apply scale_range; assumption).
  reflexivity.
Qed.

(** A render leaves every member of the object but the trace alone. *)
Lemma render_keeps_members (L : Light) :
  mNotificationState (setSpeakerBatteryLightLocked L) = mNotificationState L
  /\ mAttentionState (setSpeakerBatteryLightLocked L) = mAttentionState L
  /\ mBatteryState (setSpeakerBatteryLightLocked L) = mBatteryState L
  /\ mSliderOpen (setSpeakerBatteryLightLocked L) = mSliderOpen L
  /\ mLcdBacklightOn (setSpeakerBatteryLightLocked L) = mLcdBacklightOn L.
Proof.
  destruct (setSpeakerBatteryLightLocked_appends L) as [tr ->].
  repeat split.
Qed.

(** C4: a NOTIFICATIONS request whose colour has a top byte b with
    0 < b < 255 stores a state in which each colour channel is the request's
    channel times b divided by 255, truncated (a zero channel stays zero);
    the stored colour is made of these three channels only and the other
    fields are those of the request.  When b is 0 or 255 the request is
    stored as it is. *)
Theorem C4_notification_brightness_scaling (st : LightState) (L : Light) :
  let b := chanA (color st) in
  let stored :=
    mNotificationState (snd (setLight NOTIFICATIONS st L)) in
  (0 < b < 255 ->
     chanR (color stored) = chanR (color st) * b / 255
     /\ chanG (color stored) = chanG (color st) * b / 255
     /\ chanB (color stored) = chanB (color st) * b / 255
     /\ color stored = chanR (color stored) * 65536
                       + chanG (color stored) * 256 + chanB (color stored)
     /\ flashMode stored = flashMode st
     /\ flashOnMs stored = flashOnMs st
     /\ flashOffMs stored = flashOffMs st
     /\ brightnessMode stored = brightnessMode st)
  /\ (b = 0 \/ b = 255 -> stored = st).
Proof.
  cbv zeta.
  change (snd (setLight NOTIFICATIONS st L)) with (setNotificationLight st L).
  rewrite setNotificationLight_stores. cbv zeta.
  destruct (render_keeps_members
              (set_mNotificationState
                 (if (0 <? chanA (color st)) && (chanA (color st) <? 255)
                  then with_color
                         (chanR (color st) * chanA (color st) / 255 * 65536
                          + chanG (color st) * chanA (color st) / 255 * 256
                          + chanB (color st) * chanA (color st) / 255) st
                  else st) L)) as (-> & _).
  cbn [mNotificationState set_mNotificationState].
  pose proof (chanR_range (color st)) as HR.
  pose proof (chanG_range (color st)) as HG.
  pose proof (chanB_range (color st)) as HB.
  pose proof (chanA_range (color st)) as HA.
  split.
  - intros [H0 H255].
    destruct (Z.ltb_spec 0 (chanA (color st))); [|lia].
    destruct (Z.ltb_spec (chanA (color st)) 255); [|lia].
    cbn [andb with_color color flashMode flashOnMs flashOffMs brightnessMode].
    destruct (chan_pack (chanR (color st) * chanA (color st) / 255)
                        (chanG (color st) * chanA (color st) / 255)
                        (chanB (color st) * chanA (color st) / 255))
      as (-> & -> & -> & _); try (apply scale_range; assumption).
    repeat split.
  - intros [H|H]; rewrite H; reflexivity.
Qed.

(** A dark request stays dark when [setNotificationLight] scales it. *)
Lemma scaled_dark (st : LightState) :
  isLit st = false ->
  isLit (if (0 <? chanA (color st)) && (chanA (color st) <? 255)
         then with_color
                (chanR (color st) * chanA (color st) / 255 * 65536
                 + chanG (color st) * chanA (color st) / 255 * 256
                 + chanB (color st) * chanA (color st) / 255) st
         else st) = false.
Proof.
  intros H. destruct ((0 <? chanA (color st)) && (chanA (color st) <? 255));
    [|exact H].
  rewrite isLit_channels in H. apply negb_false_iff in H.
  apply andb_true_iff in H. destruct H as [H HB].
  apply andb_true_iff in H. destruct H as [HR HG].
  apply Z.eqb_eq in HR, HG, HB. rewrite HR, HG, HB. reflexivity.
Qed.

(** A request for one of the three sources stores a state and renders: what
    it writes is what the render writes on the object with the new state. *)
Lemma emitted_store_render (store : Light -> Light) (L : Light) :
  written (store L) = written L ->
  emitted (store ;; setSpeakerBatteryLightLocked) L =
  emitted setSpeakerBatteryLightLocked (store L).
Proof. intros E. unfold emitted, andThen. now rewrite E. Qed.

Lemma render_dark (L : Light) :
  isLit (mNotificationState L) = false ->
  isLit (mAttentionState L) = false ->
  isLit (mBatteryState L) = false ->
  setSpeakerBatteryLightLocked L = appendLines lightsOff L.
Proof.
  intros Hn Ha Hb. rewrite setSpeakerBatteryLightLocked_winner.
  unfold winner. now rewrite Hn, Ha, Hb.
Qed.

(** C7: when none of the three stored sources is lit (masked colour zero),
    a shared-LED render writes 0 to the brightness stream and 0 to the
    blink-enable stream of the three channels, and nothing else, so each of
    the six streams holds 0 afterwards.  In particular an ATTENTION, BATTERY
    or NOTIFICATIONS request with a dark colour writes these six zeros when
    the two other stored sources are dark, whatever the source was before. *)
Theorem C7_dark_sources_switch_off (L : Light) :
  let zeros :=
    [(mRedLed, Num 0); (mGreenLed, Num 0); (mBlueLed, Num 0);
     (mRedBlink, Num 0); (mGreenBlink, Num 0); (mBlueBlink, Num 0)] in
  let n := mNotificationState L in
  let a := mAttentionState L in
  let b := mBatteryState L in
  (isLit n = false -> isLit a = false -> isLit b = false ->
     emitted setSpeakerBatteryLightLocked L = zeros
     /\ Forall (fun s => lastLine s (written (setSpeakerBatteryLightLocked L))
                         = Some (Num 0))
               [mRedLed; mGreenLed; mBlueLed;
                mRedBlink; mGreenBlink; mBlueBlink])
  /\ (forall st, isLit st = false -> isLit n = false -> isLit b = false ->
        emitted (call (CallSetLight ATTENTION st)) L = zeros)
  /\ (forall st, isLit st = false -> isLit n = false -> isLit a = false ->
        emitted (call (CallSetLight BATTERY st)) L = zeros)
  /\ (forall st, isLit st = false -> isLit a = false -> isLit b = false ->
        emitted (call (CallSetLight NOTIFICATIONS st)) L = zeros).
Proof.
  cbv zeta. split; [|split; [|split]].
  - intros Hn Ha Hb. pose proof (render_dark L Hn Ha Hb) as E. split.
    + now apply emitted_appendLines.
    + rewrite E. cbn [written appendLines].
      repeat constructor; rewrite lastLine_app; reflexivity.
  - intros st Hst Hn Hb.
    change (call (CallSetLight ATTENTION st))
      with (set_mAttentionState st ;; setSpeakerBatteryLightLocked).
    rewrite emitted_store_render by reflexivity.
    apply emitted_appendLines, render_dark; assumption.
  - intros st Hst Hn Ha.
    change (call (CallSetLight BATTERY st))
      with (set_mBatteryState st ;; setSpeakerBatteryLightLocked).
    rewrite emitted_store_render by reflexivity.
    apply emitted_appendLines, render_dark; assumption.
  - intros st Hst Ha Hb.
    unfold emitted.
    change (call (CallSetLight NOTIFICATIONS st) L)
      with (setNotificationLight st L).
    rewrite setNotificationLight_stores. cbv zeta.
    pose proof (scaled_dark st Hst) as Hd.
    set (st' := if (0 <? chanA (color st)) && (chanA (color st) <? 255)
                then _ else st) in *.
    change (written L) with (written (set_mNotificationState st' L)) at 1.
    apply (emitted_appendLines setSpeakerBatteryLightLocked).
    apply render_dark; assumption.
Qed.

(** ** Output modes of the shared LED *)

Lemma winner_lit (L : Light) (st : LightState) :
  winner L = Some st -> isLit st = true.
Proof.
  unfold winner.
  destruct (isLit (mNotificationState L)) eqn:Hn; [congruence|].
  destruct (isLit (mAttentionState L)) eqn:Ha; [congruence|].
  destruct (isLit (mBatteryState L)) eqn:Hb; congruence.
Qed.

Lemma linesOf_not_written (s : Sink) (tr : Trace) :
  ~ In s (map fst tr) -> linesOf s tr = [].
Proof.
  unfold linesOf. induction tr as [|[s' v] tr IH]; intros H; [reflexivity|].
  cbn in *. unfold Sink_eqb at 1. destruct (Sink_eq_dec s' s) as [->|_].
  - exfalso. apply H. now left.
  - apply IH. intros Hin. apply H. now right.
Qed.

(** The lines of the blink branch, whatever the on time. *)
Lemma setSpeakerLightLocked_blink_lines (st : LightState) :
  blinks st = true ->
  exists stepDuration pauseHi,
    forall L,
      setSpeakerLightLocked st L =
      appendLines
        [(mRedStartIdx, Num 0);
         (mRedDutyPcts, Text (getScaledDutyPcts (chanR (color st))));
         (mRedPauseLo, Num (flashOffMs st));
         (mRedPauseHi, Num pauseHi);
         (mRedRampStepMs, Num stepDuration);
         (mGreenStartIdx, Num 8);
         (mGreenDutyPcts, Text (getScaledDutyPcts (chanG (color st))));
         (mGreenPauseLo, Num (flashOffMs st));
         (mGreenPauseHi, Num pauseHi);
         (mGreenRampStepMs, Num stepDuration);
         (mBlueStartIdx, Num 16);
         (mBlueDutyPcts, Text (getScaledDutyPcts (chanB (color st))));
         (mBluePauseLo, Num (flashOffMs st));
         (mBluePauseHi, Num pauseHi);
         (mBlueRampStepMs, Num stepDuration)] L.
Proof.
  intros Hb. unfold blinks in Hb. unfold setSpeakerLightLocked.
  destruct (flashMode st); try discriminate. rewrite Hb.
  rewrite byte_R, byte_G, byte_B.
  destruct (if flashOnMs st <? I32.mul (I32.mul RAMP_STEP_DURATION RAMP_SIZE) 2
            then (I32.div (flashOnMs st) (I32.mul RAMP_SIZE 2), 0)
            else (RAMP_STEP_DURATION,
                  I32.sub (flashOnMs st)
                          (I32.mul (I32.mul RAMP_STEP_DURATION RAMP_SIZE) 2)))
    as [stepDuration pauseHi].
  exists stepDuration, pauseHi. intros L. flatten_writes. reflexivity.
Qed.

(** C2, as the code has it: a render is in one mode, decided by the winning
    source.  Off (no lit source) writes 0 to the three brightness and the
    three blink-enable streams.  Steady (the winner does not blink) writes
    the three brightness streams with the red, green and blue channels of
    the winner's colour, not all zero, and writes neither a blink-enable
    stream nor a ramp stream.  Blink (the winner has flash mode TIMED and
    positive times) writes the fifteen ramp streams, with the duty
    percentages of the winner's channels and the winner's off time as
    pause-low, and writes neither a brightness stream nor a blink-enable
    stream.  So the blink-enable streams are written by the off render
    only. *)
Theorem C2_render_writes_by_mode (L : Light) :
  let tr := emitted setSpeakerBatteryLightLocked L in
  match renderMode L with
  | ModeOff =>
      winner L = None
      /\ tr = [(mRedLed, Num 0); (mGreenLed, Num 0); (mBlueLed, Num 0);
               (mRedBlink, Num 0); (mGreenBlink, Num 0); (mBlueBlink, Num 0)]
  | ModeSteady =>
      exists st,
        winner L = Some st /\ blinks st = false
        /\ exists r g b,
             r = chanR (color st) /\ g = chanG (color st)
             /\ b = chanB (color st)
             /\ (r <> 0 \/ g <> 0 \/ b <> 0)
             /\ tr = [(mRedLed, Num r); (mGreenLed, Num g); (mBlueLed, Num b)]
             /\ Forall (fun s => linesOf s tr = []) (blinkSinks ++ rampSinks)
  | ModeBlink =>
      exists st stepDuration pauseHi,
        winner L = Some st /\ blinks st = true
        /\ tr =
           [(mRedStartIdx, Num 0);
            (mRedDutyPcts, Text (getScaledDutyPcts (chanR (color st))));
            (mRedPauseLo, Num (flashOffMs st));
            (mRedPauseHi, Num pauseHi);
            (mRedRampStepMs, Num stepDuration);
            (mGreenStartIdx, Num 8);
            (mGreenDutyPcts, Text (getScaledDutyPcts (chanG (color st))));
            (mGreenPauseLo, Num (flashOffMs st));
            (mGreenPauseHi, Num pauseHi);
            (mGreenRampStepMs, Num stepDuration);
            (mBlueStartIdx, Num 16);
            (mBlueDutyPcts, Text (getScaledDutyPcts (chanB (color st))));
            (mBluePauseLo, Num (flashOffMs st));
            (mBluePauseHi, Num pauseHi);
            (mBlueRampStepMs, Num stepDuration)]
        /\ map fst tr = rampSinks
        /\ Forall (fun s => linesOf s tr = []) (ledSinks ++ blinkSinks)
  end.
Proof.
  cbv zeta. unfold renderMode.
  pose proof (setSpeakerBatteryLightLocked_winner L) as E.
  destruct (winner L) as [st|] eqn:Hw.
  - pose proof (winner_lit L st Hw) as Hl.
    destruct (blinks st) eqn:Hb.
    + destruct (setSpeakerLightLocked_blink_lines st Hb) as (sd & ph & Ht).
      rewrite Ht in E. rewrite (emitted_appendLines _ _ _ E).
      exists st, sd, ph.
      split; [reflexivity|]. split; [exact Hb|]. split; [reflexivity|].
      split; [reflexivity|].
      repeat constructor.
    + rewrite (setSpeakerLightLocked_steady st L Hb Hl) in E.
      rewrite (emitted_appendLines _ _ _ E).
      exists st. split; [reflexivity|]. split; [exact Hb|].
      exists (chanR (color st)), (chanG (color st)), (chanB (color st)).
      split; [reflexivity|]. split; [reflexivity|]. split; [reflexivity|].
      split; [|split; [reflexivity|repeat constructor]].
      rewrite isLit_channels in Hl. apply negb_true_iff in Hl.
      destruct (Z.eqb_spec (chanR (color st)) 0) as [_|H]; [|now left].
      destruct (Z.eqb_spec (chanG (color st)) 0) as [_|H]; [|now right; left].
      destruct (Z.eqb_spec (chanB (color st)) 0) as [_|H];
        [discriminate|now right; right].
  - split; [reflexivity|]. now apply emitted_appendLines.
Qed.

(** C2 fails as stated: on a fresh object a blinking red notification and
    then a steady red one leave the blinking mode for a non-zero steady
    colour, and the second request writes the three brightness streams only:
    no blink-enable stream is written, so the flags are not zeroed (they
    hold what they held before the object was built).  The other way round,
    a blinking request after a steady one writes no brightness stream. *)
Lemma C2_blink_to_steady_leaves_blink_flags :
  renderMode afterBlink = ModeBlink
  /\ renderMode afterSteady = ModeSteady
  /\ emitted (call (CallSetLight NOTIFICATIONS redSteady)) afterBlink =
       [(mRedLed, Num 255); (mGreenLed, Num 0); (mBlueLed, Num 0)]
  /\ ~ zeroesBlinkFlags
        (emitted (call (CallSetLight NOTIFICATIONS redSteady)) afterBlink)
  /\ lastLine mRedBlink (written afterSteady) = None
  /\ lastLine mGreenBlink (written afterSteady) = None
  /\ lastLine mBlueBlink (written afterSteady) = None
  /\ renderMode afterBlinkAgain = ModeBlink
  /\ lastLine mRedLed (written afterBlinkAgain) = Some (Num 255).
Proof.
  repeat split; try (vm_compute; reflexivity).
  intros H. inversion H as [|? ? H1 _]. vm_compute in H1. discriminate.
Qed.

(** ** Dispatch *)

(** C8: for a type outside ATTENTION, BACKLIGHT, BATTERY, BUTTONS and
    NOTIFICATIONS, [setLight] returns LIGHT_NOT_SUPPORTED and the object is
    unchanged: stored light states, slider flag, LCD flag and every line
    written; for a type of that set it returns SUCCESS.  The set is the set
    of keys of the table of handlers. *)
Theorem C8_unsupported_type_no_effect
        (type : LightType) (st : LightState) (L : Light) :
  (~ In type [ATTENTION; BACKLIGHT; BATTERY; BUTTONS; NOTIFICATIONS] ->
     setLight type st L = (LIGHT_NOT_SUPPORTED, L))
  /\ (In type [ATTENTION; BACKLIGHT; BATTERY; BUTTONS; NOTIFICATIONS] ->
      fst (setLight type st L) = SUCCESS)
  /\ (In type getSupportedTypes <->
      In type [ATTENTION; BACKLIGHT; BATTERY; BUTTONS; NOTIFICATIONS]).
Proof.
  split; [|split].
  - intros H. destruct type; try reflexivity; exfalso; apply H; cbn; tauto.
  - intros H. destruct type; try reflexivity; exfalso; cbn in H;
      intuition discriminate.
  - change getSupportedTypes
      with [NOTIFICATIONS; BUTTONS; BATTERY; BACKLIGHT; ATTENTION].
    cbn. tauto.
Qed.

(** ** Keyboard backlight *)

Lemma setKeyboardBacklightLocked_eq (L : Light) :
  setKeyboardBacklightLocked L =
  appendLines
    [(mKeyboardBacklight_first,
      Num (if mSliderOpen L && mLcdBacklightOn L then 255 else 0))]
    (set_mKeyboardBacklight_second
       (if mSliderOpen L && mLcdBacklightOn L then 255 else 0) L).
Proof. reflexivity. Qed.

(** C9: the slider callback sets the slider flag, recomputes the keyboard
    value and writes one line, to the keyboard backlight stream.  The three
    stored light states, the LCD flag and the lines of every stream of the
    RGB LED (brightness, blink, duty cycle, start index, pauses, ramp step),
    indeed of every stream but the keyboard one, are as before. *)
Theorem C9_slider_touches_keyboard_only (open : bool) (L : Light) :
  let L' := onSliderChanged open L in
  let v := if open && mLcdBacklightOn L then 255 else 0 in
  mSliderOpen L' = open
  /\ mNotificationState L' = mNotificationState L
  /\ mAttentionState L' = mAttentionState L
  /\ mBatteryState L' = mBatteryState L
  /\ mLcdBacklightOn L' = mLcdBacklightOn L
  /\ mLcdBacklight_second L' = mLcdBacklight_second L
  /\ mKeyboardBacklight_second L' = v
  /\ written L' = written L ++ [(mKeyboardBacklight_first, Num v)]
  /\ Forall (fun s => linesOf s (written L') = linesOf s (written L))
            rgbLedSinks
  /\ (forall s, s <> mKeyboardBacklight_first ->
        linesOf s (written L') = linesOf s (written L)).
Proof.
  cbv zeta. unfold onSliderChanged, andThen.
  rewrite setKeyboardBacklightLocked_eq.
  cbn [mSliderOpen mLcdBacklightOn set_mSliderOpen appendLines written
       mNotificationState mAttentionState mBatteryState mLcdBacklight_second
       mKeyboardBacklight_second set_mKeyboardBacklight_second].
  repeat (split; [reflexivity|]).
  split.
  - repeat constructor; rewrite linesOf_app; cbn; now rewrite app_nil_r.
  - intros s Hs. rewrite linesOf_app.
    rewrite (linesOf_not_written s [_]); [now rewrite app_nil_r|].
    cbn. intros [H|[]]. now apply Hs.
Qed.

Lemma setLcdBacklight_eq (st : LightState) (L : Light) :
  let on := negb (color st =? 0) in
  let brightness :=
    if negb (mLcdBacklight_second L =? DEFAULT_MAX_BRIGHTNESS)
    then U32.div (U32.mul (rgbToBrightness st) (mLcdBacklight_second L))
                 DEFAULT_MAX_BRIGHTNESS
    else rgbToBrightness st in
  let v := if mSliderOpen L && on then 255 else 0 in
  setLcdBacklight st L =
  appendLines [(mLcdBacklight_first, Num brightness);
               (mKeyboardBacklight_first, Num v)]
              (set_mKeyboardBacklight_second v (set_mLcdBacklightOn on L)).
Proof.
  cbv zeta. unfold setLcdBacklight, andThen.
  rewrite setKeyboardBacklightLocked_eq. unfold appendLines, put. cbn.
  now rewrite <- app_assoc.
Qed.

(** C10: the LCD flag looks at the whole colour word and the brightness at
    the three colour channels only.  A BACKLIGHT request whose colour has
    zero colour channels and is not zero (so its top byte is not zero, as in
    0xFF000000) writes LCD brightness 0, sets the LCD flag, and then writes
    the keyboard value: 255 when the slider is open. *)
Theorem C10_alpha_only_colour_lights_keyboard (st : LightState) (L : Light) :
  Z.land (color st) 0x00ffffff = 0 -> color st <> 0 ->
  let L' := snd (setLight BACKLIGHT st L) in
  fst (setLight BACKLIGHT st L) = SUCCESS
  /\ rgbToBrightness st = 0
  /\ emitted (call (CallSetLight BACKLIGHT st)) L =
       [(mLcdBacklight_first, Num 0);
        (mKeyboardBacklight_first, Num (if mSliderOpen L then 255 else 0))]
  /\ mLcdBacklightOn L' = true
  /\ (mSliderOpen L = true ->
      lastLine mKeyboardBacklight_first (written L') = Some (Num 255)
      /\ mKeyboardBacklight_second L' = 255).
Proof.
  intros Hrgb Hc. cbv zeta.
  change (snd (setLight BACKLIGHT st L)) with (setLcdBacklight st L).
  change (call (CallSetLight BACKLIGHT st)) with (setLcdBacklight st).
  assert (Hb : rgbToBrightness st = 0).
  { rewrite rgbToBrightness_formula. rewrite land_low24 in Hrgb.
    pose proof (chan_low24 (color st)) as (HR & HG & HB).
    rewrite Hrgb in HR, HG, HB. rewrite <- HR, <- HG, <- HB. reflexivity. }
  pose proof (setLcdBacklight_eq st L) as E. cbv zeta in E.
  rewrite Hb in E.
  replace (if negb (mLcdBacklight_second L =? DEFAULT_MAX_BRIGHTNESS)
           then U32.div (U32.mul 0 (mLcdBacklight_second L))
                        DEFAULT_MAX_BRIGHTNESS
           else 0) with 0 in E
    by (destruct (negb (mLcdBacklight_second L =? DEFAULT_MAX_BRIGHTNESS));
        reflexivity).
  apply Z.eqb_neq in Hc. rewrite Hc in E. cbn [negb] in E.
  rewrite andb_true_r in E.
  split; [reflexivity|]. split; [exact Hb|]. split; [|split].
  - eapply emitted_appendLines_on; [|exact E]. reflexivity.
  - rewrite E. reflexivity.
  - intros Ho. rewrite E. rewrite Ho. cbn [written appendLines].
    now rewrite lastLine_app.
Qed.

(** ** Runs: the keyboard follows the slider and the last LCD colour *)

Lemma putButtons_eq (buttons : list nat) (v : Z) (L : Light) :
  putButtons buttons v L =
  appendLines (map (fun i => (mButtonBacklight i, Num v)) buttons) L.
Proof.
  revert L. induction buttons as [|i rest IH]; intros L; cbn [putButtons map].
  - now rewrite appendLines_nil.
  - rewrite IH, put_appendLines, appendLines_appendLines. reflexivity.
Qed.

(** The two flags after one call. *)
Lemma call_flags (c : Call) (L : Light) :
  mSliderOpen (call c L) =
    match c with
    | CallSliderChanged open => open
    | _ => mSliderOpen L
    end
  /\ mLcdBacklightOn (call c L) =
    match c with
    | CallSetLight BACKLIGHT st => negb (color st =? 0)
    | _ => mLcdBacklightOn L
    end.
Proof.
  destruct c as [type st|open].
  - destruct type; try (split; reflexivity).
    + change (call (CallSetLight BUTTONS st) L) with (setButtonsBacklight st L).
      unfold setButtonsBacklight. rewrite putButtons_eq. split; reflexivity.
    + change (call (CallSetLight BATTERY st) L)
        with (setSpeakerBatteryLightLocked (set_mBatteryState st L)).
      destruct (render_keeps_members (set_mBatteryState st L))
        as (_ & _ & _ & -> & ->).
      split; reflexivity.
    + change (call (CallSetLight NOTIFICATIONS st) L)
        with (setNotificationLight st L).
      rewrite setNotificationLight_stores. cbv zeta.
      match goal with
      | |- context [setSpeakerBatteryLightLocked ?X] =>
          destruct (render_keeps_members X) as (_ & _ & _ & -> & ->)
      end.
      split; reflexivity.
    + change (call (CallSetLight ATTENTION st) L)
        with (setSpeakerBatteryLightLocked (set_mAttentionState st L)).
      destruct (render_keeps_members (set_mAttentionState st L))
        as (_ & _ & _ & -> & ->).
      split; reflexivity.
  - split; reflexivity.
Qed.

Lemma run_snoc (cs : list Call) (c : Call) (L : Light) :
  run (cs ++ [c]) L = call c (run cs L).
Proof. unfold run. now rewrite fold_left_app. Qed.

(** The slider flag of a run is the value of its last slider callback. *)
Lemma run_mSliderOpen (cs : list Call) (L : Light) :
  mSliderOpen (run cs L) = lastSlider cs (mSliderOpen L).
Proof.
  revert L. induction cs as [|c cs IH]; intros L; [reflexivity|].
  change (run (c :: cs) L) with (run cs (call c L)).
  rewrite IH. destruct (call_flags c L) as [-> _].
  destruct c as [[] st|open]; reflexivity.
Qed.

(** The LCD flag of a run says whether its last BACKLIGHT colour is zero. *)
Lemma run_mLcdBacklightOn (cs : list Call) (L : Light) (c0 : Z) :
  mLcdBacklightOn L = negb (c0 =? 0) ->
  mLcdBacklightOn (run cs L) = negb (lastLcdColor cs c0 =? 0).
Proof.
  revert L c0. induction cs as [|c cs IH]; intros L c0 H; [exact H|].
  change (run (c :: cs) L) with (run cs (call c L)).
  destruct (call_flags c L) as [_ E].
  destruct c as [[] st|open]; cbn [lastLcdColor]; apply IH;
    rewrite E; try exact H; reflexivity.
Qed.

(** A call that renders the keyboard ends the trace with the keyboard line
    for the flags it leaves. *)
Lemma call_keyboard_line (c : Call) (L : Light) :
  touchesKeyboard c = true ->
  lastLine mKeyboardBacklight_first (written (call c L)) =
  Some (Num (if mSliderOpen (call c L) && mLcdBacklightOn (call c L)
             then 255 else 0)).
Proof.
  intros H. destruct c as [type st|open].
  - destruct type; try discriminate.
    change (call (CallSetLight BACKLIGHT st) L) with (setLcdBacklight st L).
    rewrite setLcdBacklight_eq. cbv zeta. cbn [written appendLines
      mSliderOpen mLcdBacklightOn set_mKeyboardBacklight_second
      set_mLcdBacklightOn].
    now rewrite lastLine_app.
  - change (call (CallSliderChanged open) L) with (onSliderChanged open L).
    unfold onSliderChanged, andThen. rewrite setKeyboardBacklightLocked_eq.
    cbn [written appendLines mSliderOpen mLcdBacklightOn
         set_mKeyboardBacklight_second set_mSliderOpen].
    now rewrite lastLine_app.
Qed.

(** C6: take any run of requests and slider callbacks on a freshly built
    object that ends with a BACKLIGHT request or a slider callback.  The
    keyboard backlight stream then holds 255 when the last slider value is
    open and the colour of the last BACKLIGHT request is not zero, and 0
    otherwise (before any callback the slider counts as closed, before any
    BACKLIGHT request the LCD as off).  In particular a slider callback in a
    run whose last BACKLIGHT colour is zero leaves the keyboard at 0. *)
Theorem C6_keyboard_iff_slider_open_and_lcd_on
        (lcd_max keyboard_max : Z) (buttons : nat)
        (attention battery notification : LightState)
        (cs : list Call) (c : Call) :
  touchesKeyboard c = true ->
  let L := run (cs ++ [c])
               (Light_ctor lcd_max keyboard_max buttons
                           attention battery notification) in
  let sliderOpen := lastSlider (cs ++ [c]) false in
  let lcdColor := lastLcdColor (cs ++ [c]) 0 in
  let keyboard := lastLine mKeyboardBacklight_first (written L) in
  keyboard = Some (Num (if sliderOpen && negb (lcdColor =? 0) then 255 else 0))
  /\ (keyboard = Some (Num 255) <-> sliderOpen = true /\ lcdColor <> 0)
  /\ (forall open, c = CallSliderChanged open -> lastLcdColor cs 0 = 0 ->
        keyboard = Some (Num 0)).
Proof.
  intros Hc. cbv zeta.
  set (L0 := Light_ctor lcd_max keyboard_max buttons
                        attention battery notification).
  assert (K : lastLine mKeyboardBacklight_first (written (run (cs ++ [c]) L0))
              = Some (Num (if lastSlider (cs ++ [c]) false
                              && negb (lastLcdColor (cs ++ [c]) 0 =? 0)
                           then 255 else 0))).
  { pose proof (run_mSliderOpen (cs ++ [c]) L0) as HS.
    change (mSliderOpen L0) with false in HS.
    rewrite <- HS, <- (run_mLcdBacklightOn (cs ++ [c]) L0 0 eq_refl).
    rewrite run_snoc. now apply call_keyboard_line. }
  split; [exact K|]. split.
  - rewrite K.
    destruct (lastSlider (cs ++ [c]) false);
      destruct (Z.eqb_spec (lastLcdColor (cs ++ [c]) 0) 0) as [E|E];
      cbn [andb negb]; split; try discriminate; try tauto;
      intros [H1 H2]; try discriminate; contradiction.
  - intros open -> Hz. rewrite K.
    assert (E : lastLcdColor (cs ++ [CallSliderChanged open]) 0 = 0).
    { clear K. revert Hz. generalize 0 at 1 3.
      induction cs as [|[[] st|o] cs IH]; intros z Hz; cbn in *; auto. }
    rewrite E. now rewrite andb_false_r.
Qed.

(** * The theorems at sample inputs *)

(** All three sources lit: the notification is rendered, as it is alone;
    attention and battery lit: the attention is rendered, as without
    battery. *)
Lemma C1_render_follows_priority_witness :
  (isLit (mNotificationState allLit) = true
   /\ isLit (mAttentionState allLit) = true
   /\ isLit (mBatteryState allLit) = true
   /\ setSpeakerBatteryLightLocked allLit =
      setSpeakerLightLocked redBlinking allLit
   /\ emitted setSpeakerBatteryLightLocked allLit =
      emitted setSpeakerBatteryLightLocked
              (set_mAttentionState darkState
                 (set_mBatteryState darkState allLit)))
  /\ (isLit (mNotificationState attentionAndBatteryLit) = false
      /\ isLit (mAttentionState attentionAndBatteryLit) = true
      /\ isLit (mBatteryState attentionAndBatteryLit) = true
      /\ setSpeakerBatteryLightLocked attentionAndBatteryLit =
         setSpeakerLightLocked greenSteady attentionAndBatteryLit
      /\ emitted setSpeakerBatteryLightLocked attentionAndBatteryLit =
         emitted setSpeakerBatteryLightLocked
                 (set_mBatteryState darkState attentionAndBatteryLit)).
Proof.
  split.
  - destruct (C1_render_follows_priority allLit) as (H & _ & _).
    destruct (H eq_refl) as [H1 H2].
    split; [reflexivity|]. split; [reflexivity|]. split; [reflexivity|].
    split; [exact H1|]. exact (H2 darkState darkState).
  - destruct (C1_render_follows_priority attentionAndBatteryLit)
      as (_ & H & _).
    destruct (H eq_refl eq_refl) as [H1 H2].
    split; [reflexivity|]. split; [reflexivity|]. split; [reflexivity|].
    split; [exact H1|]. exact (H2 darkState).
Defined.

(** On 1000 ms, off 500 ms: step 50 and pause-high 200.  On 100 ms: step 6
    and pause-high 0.  Pause-low is 500 on the three channels. *)
Lemma C3_blink_ramp_timing_witness :
  (flashMode redBlinking = TIMED /\ 0 < flashOnMs redBlinking
   /\ 0 < flashOffMs redBlinking /\ I32.valid (flashOnMs redBlinking)
   /\ emitted (setSpeakerLightLocked redBlinking) freshLight =
      [(mRedStartIdx, Num 0);
       (mRedDutyPcts, Text "0,12,25,37,50,72,85,100");
       (mRedPauseLo, Num 500); (mRedPauseHi, Num 200);
       (mRedRampStepMs, Num 50);
       (mGreenStartIdx, Num 8);
       (mGreenDutyPcts, Text "0,0,0,0,0,0,0,0");
       (mGreenPauseLo, Num 500); (mGreenPauseHi, Num 200);
       (mGreenRampStepMs, Num 50);
       (mBlueStartIdx, Num 16);
       (mBlueDutyPcts, Text "0,0,0,0,0,0,0,0");
       (mBluePauseLo, Num 500); (mBluePauseHi, Num 200);
       (mBlueRampStepMs, Num 50)])
  /\ (flashMode redShortBlink = TIMED /\ 0 < flashOnMs redShortBlink
      /\ 0 < flashOffMs redShortBlink /\ I32.valid (flashOnMs redShortBlink)
      /\ emitted (setSpeakerLightLocked redShortBlink) freshLight =
         [(mRedStartIdx, Num 0);
          (mRedDutyPcts, Text "0,12,25,37,50,72,85,100");
          (mRedPauseLo, Num 500); (mRedPauseHi, Num 0);
          (mRedRampStepMs, Num 6);
          (mGreenStartIdx, Num 8);
          (mGreenDutyPcts, Text "0,0,0,0,0,0,0,0");
          (mGreenPauseLo, Num 500); (mGreenPauseHi, Num 0);
          (mGreenRampStepMs, Num 6);
          (mBlueStartIdx, Num 16);
          (mBlueDutyPcts, Text "0,0,0,0,0,0,0,0");
          (mBluePauseLo, Num 500); (mBluePauseHi, Num 0);
          (mBlueRampStepMs, Num 6)]).
Proof.
  assert (V1 : I32.valid (flashOnMs redBlinking)) by (vm_compute; split; [discriminate|reflexivity]).
  assert (V2 : I32.valid (flashOnMs redShortBlink)) by (vm_compute; split; [discriminate|reflexivity]).
  split.
  - split; [reflexivity|]. split; [reflexivity|]. split; [reflexivity|].
    split; [exact V1|].
    exact (proj1 (C3_blink_ramp_timing redBlinking freshLight
                    eq_refl eq_refl eq_refl V1)).
  - split; [reflexivity|]. split; [reflexivity|]. split; [reflexivity|].
    split; [exact V2|].
    exact (proj1 (C3_blink_ramp_timing redShortBlink freshLight
                    eq_refl eq_refl eq_refl V2)).
Defined.

(** Colour 0x80FF0000: brightness 128, so the stored red channel is 128 and
    the stored colour is 0x00800000.  Colour 0xFFFFFFFF: brightness 255, so
    the request is stored as it is. *)
Lemma C4_notification_brightness_scaling_witness :
  (0 < chanA (color redHalf) < 255
   /\ chanR (color (mNotificationState
                      (snd (setLight NOTIFICATIONS redHalf freshLight)))) = 128)
  /\ (chanA (color whiteSteady) = 255
      /\ mNotificationState
           (snd (setLight NOTIFICATIONS whiteSteady freshLight)) = whiteSteady).
Proof.
  assert (B : 0 < chanA (color redHalf) < 255) by (vm_compute; split; reflexivity).
  split.
  - split; [exact B|].
    exact (proj1 (proj1 (C4_notification_brightness_scaling redHalf freshLight)
                        B)).
  - split; [reflexivity|].
    exact (proj2 (C4_notification_brightness_scaling whiteSteady freshLight)
                 (or_intror eq_refl)).
Defined.

(** LCD on, then slider opened: the keyboard holds 255.  Slider opened with
    the LCD never lit: the keyboard holds 0. *)
Lemma C6_keyboard_iff_slider_open_and_lcd_on_witness :
  (touchesKeyboard (CallSliderChanged true) = true
   /\ lastLine mKeyboardBacklight_first
        (written (run ([CallSetLight BACKLIGHT whiteSteady]
                       ++ [CallSliderChanged true]) freshLight))
      = Some (Num 255))
  /\ lastLine mKeyboardBacklight_first
       (written (run ([CallSetLight BACKLIGHT darkState]
                      ++ [CallSliderChanged true]) freshLight))
     = Some (Num 0).
Proof.
  split.
  - split; [reflexivity|].
    exact (proj1 (C6_keyboard_iff_slider_open_and_lcd_on
                    255 255 2 darkState darkState darkState
                    [CallSetLight BACKLIGHT whiteSteady]
                    (CallSliderChanged true) eq_refl)).
  - exact (proj2 (proj2 (C6_keyboard_iff_slider_open_and_lcd_on
                    255 255 2 darkState darkState darkState
                    [CallSetLight BACKLIGHT darkState]
                    (CallSliderChanged true) eq_refl))
                 true eq_refl eq_refl).
Defined.

(** A lit attention source set to dark while notification and battery are
    dark: six zeros are written. *)
Lemma C7_dark_sources_switch_off_witness :
  isLit darkState = false
  /\ isLit (mAttentionState attentionLit) = true
  /\ emitted (call (CallSetLight ATTENTION darkState)) attentionLit =
     [(mRedLed, Num 0); (mGreenLed, Num 0); (mBlueLed, Num 0);
      (mRedBlink, Num 0); (mGreenBlink, Num 0); (mBlueBlink, Num 0)]
  /\ emitted setSpeakerBatteryLightLocked freshLight =
     [(mRedLed, Num 0); (mGreenLed, Num 0); (mBlueLed, Num 0);
      (mRedBlink, Num 0); (mGreenBlink, Num 0); (mBlueBlink, Num 0)].
Proof.
  split; [reflexivity|]. split; [reflexivity|]. split.
  - exact (proj1 (proj2 (C7_dark_sources_switch_off attentionLit))
                 darkState eq_refl eq_refl eq_refl).
  - exact (proj1 (proj1 (C7_dark_sources_switch_off freshLight)
                        eq_refl eq_refl eq_refl)).
Defined.

(** WIFI is not supported and changes nothing; BACKLIGHT is supported. *)
Lemma C8_unsupported_type_no_effect_witness :
  (~ In WIFI [ATTENTION; BACKLIGHT; BATTERY; BUTTONS; NOTIFICATIONS]
   /\ setLight WIFI whiteSteady freshLight = (LIGHT_NOT_SUPPORTED, freshLight))
  /\ (In BACKLIGHT [ATTENTION; BACKLIGHT; BATTERY; BUTTONS; NOTIFICATIONS]
      /\ fst (setLight BACKLIGHT whiteSteady freshLight) = SUCCESS).
Proof.
  assert (N : ~ In WIFI [ATTENTION; BACKLIGHT; BATTERY; BUTTONS; NOTIFICATIONS]).
  { cbn. intros H.
    repeat (destruct H as [H|H]; [discriminate H|]). exact H. }
  assert (I : In BACKLIGHT [ATTENTION; BACKLIGHT; BATTERY; BUTTONS; NOTIFICATIONS]).
  { right. left. reflexivity. }
  split.
  - split; [exact N|].
    exact (proj1 (C8_unsupported_type_no_effect WIFI whiteSteady freshLight) N).
  - split; [exact I|].
    exact (proj1 (proj2 (C8_unsupported_type_no_effect
                           BACKLIGHT whiteSteady freshLight)) I).
Defined.

(** Opening the slider on a fresh object: the red brightness stream has the
    lines it had. *)
Lemma C9_slider_touches_keyboard_only_witness :
  mRedLed <> mKeyboardBacklight_first
  /\ linesOf mRedLed (written (onSliderChanged true freshLight)) =
     linesOf mRedLed (written freshLight).
Proof.
  assert (N : mRedLed <> mKeyboardBacklight_first) by discriminate.
  split; [exact N|].
  destruct (C9_slider_touches_keyboard_only true freshLight)
    as (_ & _ & _ & _ & _ & _ & _ & _ & _ & H).
  exact (H mRedLed N).
Defined.

(** Colour 0xFF000000 with the slider open: LCD brightness 0, keyboard 255. *)
Lemma C10_alpha_only_colour_lights_keyboard_witness :
  Z.land (color alphaOnly) 0x00ffffff = 0
  /\ color alphaOnly <> 0
  /\ mSliderOpen sliderOpenLight = true
  /\ emitted (call (CallSetLight BACKLIGHT alphaOnly)) sliderOpenLight =
     [(mLcdBacklight_first, Num 0); (mKeyboardBacklight_first, Num 255)]
  /\ lastLine mKeyboardBacklight_first
       (written (snd (setLight BACKLIGHT alphaOnly sliderOpenLight)))
     = Some (Num 255).
Proof.
  assert (N : color alphaOnly <> 0) by discriminate.
  destruct (C10_alpha_only_colour_lights_keyboard
              alphaOnly sliderOpenLight eq_refl N)
    as (_ & _ & E & _ & K).
  split; [reflexivity|]. split; [exact N|]. split; [reflexivity|].
  split; [exact E|]. exact (proj1 (K eq_refl)).
Defined.

(** * Further properties of the translation unit *)

(** ** Duty percentages *)

Lemma string_app_assoc (a b c : string) :
  ((a ++ b) ++ c)%string = (a ++ (b ++ c))%string.
Proof. induction a as [|x a IH]; cbn; [reflexivity|]. now rewrite IH. Qed.

Lemma string_app_nil_r (a : string) : (a ++ EmptyString)%string = a.
Proof. induction a as [|x a IH]; cbn; [reflexivity|]. now rewrite IH. Qed.

(** The loop appends to [buf] the entries of the rest of the ramp, each
    after the pad it finds. *)
Lemma getScaledDutyPcts_loop_join (ramp : list Z) (b : Z) (buf pad : string) :
  getScaledDutyPcts_loop ramp b buf pad =
  (buf ++ match ramp with
          | [] => EmptyString
          | _ => pad ++ String.concat ","
                          (map (fun i => to_string (I32.div (I32.mul i b) 255))
                               ramp)
          end)%string.
Proof.
  revert buf pad. induction ramp as [|i rest IH]; intros buf pad.
  - cbn. now rewrite string_app_nil_r.
  - cbn [getScaledDutyPcts_loop]. rewrite IH.
    destruct rest as [|j rest].
    + cbn. now rewrite string_app_nil_r, string_app_assoc.
    + cbn [map String.concat]. now rewrite !string_app_assoc.
Qed.

(** The string written to a duty-cycle stream is the eight percentages in
    decimal, separated by commas, with no comma before the first or after
    the last. *)
Theorem getScaledDutyPcts_is_comma_join (brightness : Z) :
  getScaledDutyPcts brightness =
    String.concat "," (map to_string (scaledDutyPcts brightness))
  /\ List.length (scaledDutyPcts brightness) = 8%nat.
Proof.
  split; [|reflexivity].
  unfold getScaledDutyPcts, scaledDutyPcts.
  rewrite getScaledDutyPcts_loop_join, map_map. reflexivity.
Qed.

Lemma duty_entry (i b : Z) :
  0 <= i <= 100 -> 0 <= b <= 255 ->
  I32.div (I32.mul i b) 255 = i * b / 255.
Proof.
  intros Hi Hb. unfold I32.div, I32.mul.
  rewrite i32_small by nia. apply Z.quot_div_nonneg; nia.
Qed.

(** For a channel value (0 to 255) the eight percentages are the ramp
    entries times the value over 255, truncated; they lie between 0 and 100
    and never decrease along the ramp; the last one is 100*value/255. *)
Theorem scaledDutyPcts_percentages (brightness : Z) :
  0 <= brightness <= 255 ->
  scaledDutyPcts brightness =
    map (fun i => i * brightness / 255) BRIGHTNESS_RAMP
  /\ Forall (fun p => 0 <= p <= 100) (scaledDutyPcts brightness)
  /\ StronglySorted Z.le (scaledDutyPcts brightness)
  /\ last (scaledDutyPcts brightness) 0 = 100 * brightness / 255.
Proof.
  intros Hb.
  assert (E : scaledDutyPcts brightness =
              map (fun i => i * brightness / 255) BRIGHTNESS_RAMP).
  { unfold scaledDutyPcts, BRIGHTNESS_RAMP. cbn [map].
    rewrite !duty_entry by lia. reflexivity. }
  split; [exact E|]. rewrite E. unfold BRIGHTNESS_RAMP. cbn [map last].
  split; [|split; [|reflexivity]].
  - repeat constructor;
      try (apply Z.div_pos; lia);
      apply Z.div_le_upper_bound; lia.
  - repeat constructor; apply Z.div_le_mono; lia.
Qed.

(** ** Blink timing *)

(** In the blink branch the sixteen ramp steps and the hold fit in the on
    time and fall short of it by less than 16 ms: the step is between 0 and
    50, the hold is not negative, and 16*step + hold <= on < 16*step + hold
    + 16.  The step is 0 exactly when the on time is below 16 ms.  The three
    channels get the same step and the same hold. *)
Theorem blink_ramp_fits_on_time (st : LightState) (L : Light) :
  blinks st = true -> I32.valid (flashOnMs st) ->
  exists stepDuration pauseHi,
    Forall (fun s => lastLine s (emitted (setSpeakerLightLocked st) L)
                     = Some (Num stepDuration))
           [mRedRampStepMs; mGreenRampStepMs; mBlueRampStepMs]
    /\ Forall (fun s => lastLine s (emitted (setSpeakerLightLocked st) L)
                        = Some (Num pauseHi))
              [mRedPauseHi; mGreenPauseHi; mBluePauseHi]
    /\ 0 <= stepDuration <= 50 /\ 0 <= pauseHi
    /\ 16 * stepDuration + pauseHi <= flashOnMs st
       < 16 * stepDuration + pauseHi + 16
    /\ (stepDuration = 0 <-> flashOnMs st < 16).
Proof.
  intros Hb Hv.
  pose proof (setSpeakerLightLocked_blink st L Hb Hv) as E. cbv zeta in E.
  rewrite (emitted_appendLines _ _ _ E).
  assert (Hon : 0 < flashOnMs st).
  { unfold blinks in Hb. destruct (flashMode st); try discriminate.
    apply andb_true_iff in Hb. now apply Z.ltb_lt. }
  exists (if 800 <=? flashOnMs st then 50 else flashOnMs st / 16),
         (if 800 <=? flashOnMs st then flashOnMs st - 800 else 0).
  split; [repeat constructor|]. split; [repeat constructor|].
  destruct (Z.leb_spec 800 (flashOnMs st)) as [H|H].
  - repeat split; lia.
  - pose proof (Z.div_mod (flashOnMs st) 16 ltac:(lia)) as D.
    pose proof (Z.mod_pos_bound (flashOnMs st) 16 ltac:(lia)) as M.
    repeat split; try lia.
Qed.

(** A lit state blinks only with flash mode TIMED and both times positive:
    with any other flash mode (HARDWARE included), or a time that is zero or
    negative, the render writes the three brightness streams with the
    channels of the colour and nothing else. *)
Theorem lit_state_without_timed_flash_is_steady (st : LightState) (L : Light) :
  isLit st = true ->
  flashMode st <> TIMED \/ flashOnMs st <= 0 \/ flashOffMs st <= 0 ->
  emitted (setSpeakerLightLocked st) L =
    [(mRedLed, Num (chanR (color st)));
     (mGreenLed, Num (chanG (color st)));
     (mBlueLed, Num (chanB (color st)))].
Proof.
  intros Hl Hc. apply emitted_appendLines.
  apply setSpeakerLightLocked_steady; [|exact Hl].
  unfold blinks. destruct (flashMode st); try reflexivity.
  destruct Hc as [Hc|[Hc|Hc]]; [congruence| |].
  - destruct (Z.ltb_spec 0 (flashOnMs st)); [lia|reflexivity].
  - destruct (Z.ltb_spec 0 (flashOffMs st)); [lia|]. apply andb_false_r.
Qed.

(** ** Finding the input device *)

(** The calls of a search from number [n]: the first [k] devices are opened
    and closed in turn, then the search ends on the device it returns or on
    the number that cannot be opened. *)
Lemma openInputDeviceByName_from_calls (name : string) (devs : InputDevices)
      (n : nat) :
  exists k,
    snd (openInputDeviceByName_from name devs n) =
      flat_map (fun j => [SysOpen j; SysClose j]) (seq n k)
      ++ [match fst (openInputDeviceByName_from name devs n) with
          | Some fd => SysOpen fd
          | None => SysOpenFailed (n + k)
          end]
    /\ match fst (openInputDeviceByName_from name devs n) with
       | Some fd =>
           fd = (n + k)%nat /\ nth_error devs k = Some (Some name)
       | None => k = List.length devs
       end
    /\ forall j, (j < k)%nat -> nth_error devs j <> Some (Some name).
Proof.
  revert n. induction devs as [|d rest IH]; intros n.
  - exists 0%nat. cbn. rewrite Nat.add_0_r. repeat split. intros j Hj.
    inversion Hj.
  - cbn [openInputDeviceByName_from].
    destruct (match d with Some d0 => String.eqb d0 name | None => false end)
      eqn:M.
    + exists 0%nat. cbn. rewrite Nat.add_0_r.
      destruct d as [d|]; [|discriminate]. apply String.eqb_eq in M.
      subst d. repeat split. intros j Hj. inversion Hj.
    + destruct (IH (S n)) as (k & Hc & Hf & Hn).
      destruct (openInputDeviceByName_from name rest (S n)) as [fd calls].
      cbn [fst snd] in *. exists (S k). split; [|split].
      * cbn [seq flat_map app]. now rewrite Hc, Nat.add_succ_r.
      * destruct fd as [fd|].
        -- destruct Hf as [Hf1 Hf2]. split; [lia|exact Hf2].
        -- cbn. now rewrite Hf.
      * intros [|j] Hj; cbn.
        -- intros E. injection E as E. subst d.
           now rewrite String.eqb_refl in M.
        -- apply Hn. lia.
Qed.

(** [openInputDeviceByName] returns the first device, in number order, whose
    reported name is the name asked for, and -1 exactly when no device
    before the first one that cannot be opened has that name. *)
Theorem openInputDeviceByName_first_match (name : string) (devs : InputDevices) :
  (forall fd, fst (openInputDeviceByName name devs) = Some fd ->
     nth_error devs fd = Some (Some name)
     /\ forall j, (j < fd)%nat -> nth_error devs j <> Some (Some name))
  /\ (fst (openInputDeviceByName name devs) = None <->
      ~ In (Some name) devs).
Proof.
  unfold openInputDeviceByName.
  destruct (openInputDeviceByName_from_calls name devs 0) as (k & _ & Hf & Hn).
  destruct (fst (openInputDeviceByName_from name devs 0)) as [fd|].
  - destruct Hf as [-> Hk]. cbn [Nat.add]. split.
    + intros fd' E. injection E as <-. split; [exact Hk|exact Hn].
    + split; [discriminate|]. intros H. exfalso. apply H.
      eapply nth_error_In. exact Hk.
  - subst k. split; [discriminate|]. split; [|reflexivity].
    intros _ Hin. apply In_nth_error in Hin. destruct Hin as [j Hj].
    apply (Hn j); [|exact Hj].
    apply nth_error_Some. rewrite Hj. discriminate.
Qed.

(** The search leaks no descriptor: every device it opens is closed again,
    but for the one it returns, which is not closed; when it returns -1
    every device it opened is closed. *)
Theorem openInputDeviceByName_closes_what_it_skips
        (name : string) (devs : InputDevices) :
  let fd := fst (openInputDeviceByName name devs) in
  let calls := snd (openInputDeviceByName name devs) in
  (forall m, In (SysOpen m) calls -> fd = Some m \/ In (SysClose m) calls)
  /\ (forall m, fd = Some m -> ~ In (SysClose m) calls /\ In (SysOpen m) calls)
  /\ (fd = None -> forall m, In (SysOpen m) calls -> In (SysClose m) calls).
Proof.
  cbv zeta. unfold openInputDeviceByName.
  destruct (openInputDeviceByName_from_calls name devs 0) as (k & Hc & Hf & _).
  rewrite Hc.
  assert (Hopen : forall m,
             In (SysOpen m) (flat_map (fun j => [SysOpen j; SysClose j])
                                      (seq 0 k)) ->
             In (SysClose m) (flat_map (fun j => [SysOpen j; SysClose j])
                                       (seq 0 k))).
  { intros m H. apply in_flat_map in H. destruct H as (j & Hj & H).
    apply in_flat_map. exists j. split; [exact Hj|].
    destruct H as [H|[H|[]]]; [injection H as ->|discriminate].
    right. now left. }
  assert (Hclose : forall m,
             In (SysClose m) (flat_map (fun j => [SysOpen j; SysClose j])
                                       (seq 0 k)) -> (m < k)%nat).
  { intros m H. apply in_flat_map in H. destruct H as (j & Hj & H).
    apply in_seq in Hj.
    destruct H as [H|[H|[]]]; [discriminate|injection H as ->]. lia. }
  destruct (fst (openInputDeviceByName_from name devs 0)) as [fd|].
  - destruct Hf as [-> _]. cbn [Nat.add]. split; [|split].
    + intros m H. apply in_app_or in H. destruct H as [H|[H|[]]].
      * right. apply in_or_app. left. now apply Hopen.
      * left. now injection H as ->.
    + intros m E. injection E as <-. split.
      * intros H. apply in_app_or in H. destruct H as [H|[H|[]]].
        -- apply Hclose in H. lia.
        -- discriminate.
      * apply in_or_app. right. now left.
    + discriminate.
  - split; [|split].
    + intros m H. right. apply in_app_or in H. destruct H as [H|[H|[]]].
      * apply in_or_app. left. now apply Hopen.
      * discriminate.
    + discriminate.
    + intros _ m H. apply in_app_or in H. destruct H as [H|[H|[]]].
      * apply in_or_app. left. now apply Hopen.
      * discriminate.
Qed.

(** ** The slider monitor *)

Lemma sliderMonitorEvent_cases (ev : input_event) (L : Light) :
  sliderMonitorEvent ev L =
  if isLidEvent ev then onSliderChanged (ev_value ev =? 0) L else L.
Proof.
  unfold sliderMonitorEvent, isLidEvent.
  destruct (ev_type ev =? EV_SW), (ev_code ev =? SW_LID); reflexivity.
Qed.

Lemma onSliderChanged_eq (open : bool) (L : Light) :
  onSliderChanged open L =
  appendLines
    [(mKeyboardBacklight_first,
      Num (if open && mLcdBacklightOn L then 255 else 0))]
    (set_mKeyboardBacklight_second
       (if open && mLcdBacklightOn L then 255 else 0)
       (set_mSliderOpen open L)).
Proof. reflexivity. Qed.

(** The monitor loop drops every event that is not a lid switch event
    (EV_SYN reports and the like): the object ends as if only the lid
    events had been read. *)
Theorem sliderMonitorEvents_ignores_other_events
        (evs : list input_event) (L : Light) :
  sliderMonitorEvents evs L = sliderMonitorEvents (filter isLidEvent evs) L
  /\ (Forall (fun ev => isLidEvent ev = false) evs ->
      sliderMonitorEvents evs L = L).
Proof.
  split.
  - revert L. induction evs as [|ev evs IH]; intros L; [reflexivity|].
    unfold sliderMonitorEvents in *. cbn [fold_left filter].
    rewrite sliderMonitorEvent_cases.
    destruct (isLidEvent ev) eqn:E.
    + cbn [fold_left]. rewrite sliderMonitorEvent_cases, E. apply IH.
    + apply IH.
  - revert L. induction evs as [|ev evs IH]; intros L H; [reflexivity|].
    inversion H as [|? ? H1 H2]; subst.
    unfold sliderMonitorEvents in *. cbn [fold_left].
    rewrite sliderMonitorEvent_cases, H1. now apply IH.
Qed.

(** After any list of events the slider flag is "value is 0" of the last lid
    event (unchanged when there is none), one line is written to the
    keyboard stream for each lid event (255 when that event opens the
    slider and the LCD flag is set, else 0), no other stream is written, and
    the stored light states and the LCD flag are as before. *)
Theorem sliderMonitorEvents_effect (evs : list input_event) (L : Light) :
  let L' := sliderMonitorEvents evs L in
  mSliderOpen L' = lastLid evs (mSliderOpen L)
  /\ written L' =
     written L ++
     map (fun ev => (mKeyboardBacklight_first,
                     Num (if (ev_value ev =? 0) && mLcdBacklightOn L
                          then 255 else 0)))
         (filter isLidEvent evs)
  /\ mLcdBacklightOn L' = mLcdBacklightOn L
  /\ mNotificationState L' = mNotificationState L
  /\ mAttentionState L' = mAttentionState L
  /\ mBatteryState L' = mBatteryState L.
Proof.
  cbv zeta. revert L. induction evs as [|ev evs IH]; intros L.
  - cbn. rewrite app_nil_r. repeat split.
  - unfold sliderMonitorEvents in *. cbn [fold_left lastLid filter].
    rewrite sliderMonitorEvent_cases.
    destruct (isLidEvent ev) eqn:E.
    + destruct (IH (onSliderChanged (ev_value ev =? 0) L))
        as (H1 & H2 & H3 & H4 & H5 & H6).
      rewrite H1, H2, H3, H4, H5, H6. rewrite onSliderChanged_eq.
      cbn [mSliderOpen mLcdBacklightOn mNotificationState mAttentionState
           mBatteryState written appendLines set_mKeyboardBacklight_second
           set_mSliderOpen map].
      rewrite <- app_assoc. repeat split.
    + apply IH.
Qed.

(** ** What requests write, and what they leave alone *)

Lemma chan_byte (c : Z) :
  0 <= chanR c <= 255 /\ 0 <= chanG c <= 255 /\ 0 <= chanB c <= 255.
Proof.
  pose proof (chanR_range c). pose proof (chanG_range c).
  pose proof (chanB_range c). lia.
Qed.

(** A render writes streams of the shared LED only, and every line it
    writes is well formed. *)
Lemma render_lines (L : Light) :
  exists tr,
    setSpeakerBatteryLightLocked L = appendLines tr L
    /\ Forall lineOk tr
    /\ Forall (fun w => isRgbLedSink (fst w) = true) tr.
Proof.
  rewrite setSpeakerBatteryLightLocked_winner.
  destruct (winner L) as [st|] eqn:Hw.
  - pose proof (winner_lit L st Hw) as Hl.
    destruct (chan_byte (color st)) as (HR & HG & HB).
    destruct (blinks st) eqn:Hb.
    + destruct (setSpeakerLightLocked_blink_lines st Hb) as (sd & ph & E).
      eexists. split; [apply E|]. split.
      * repeat constructor; cbn; eauto.
      * repeat constructor.
    + eexists. split; [apply (setSpeakerLightLocked_steady st L Hb Hl)|].
      split; repeat constructor; cbn; eauto.
  - exists lightsOff. split; [reflexivity|].
    split; repeat constructor; cbn; eauto.
    all: exists 0; split; [reflexivity|lia].
Qed.

Lemma linesOf_none (s : Sink) (tr : Trace) (p : Sink -> bool) :
  Forall (fun w => p (fst w) = true) tr -> p s = false -> linesOf s tr = [].
Proof.
  intros H Hs. apply linesOf_not_written. intros Hin.
  apply in_map_iff in Hin. destruct Hin as (w & <- & Hw).
  rewrite Forall_forall in H. specialize (H w Hw). congruence.
Qed.

(** An ATTENTION, BATTERY or NOTIFICATIONS request is a store followed by a
    render. *)
Lemma led_request_shape (type : LightType) (st : LightState) (L : Light) :
  In type [ATTENTION; BATTERY; NOTIFICATIONS] ->
  exists store,
    call (CallSetLight type st) L = setSpeakerBatteryLightLocked (store L)
    /\ store =
       match type with
       | ATTENTION => set_mAttentionState st
       | BATTERY => set_mBatteryState st
       | _ => set_mNotificationState (scaledNotification st)
       end.
Proof.
  intros [<-|[<-|[<-|[]]]].
  - now exists (set_mAttentionState st).
  - now exists (set_mBatteryState st).
  - exists (set_mNotificationState (scaledNotification st)).
    split; [|reflexivity].
    change (call (CallSetLight NOTIFICATIONS st) L)
      with (setNotificationLight st L).
    apply setNotificationLight_stores.
Qed.

Lemma led_request_keeps_other_lines
      (type : LightType) (st : LightState) (L : Light) (s : Sink) :
  In type [ATTENTION; BATTERY; NOTIFICATIONS] ->
  isRgbLedSink s = false ->
  linesOf s (written (call (CallSetLight type st) L)) = linesOf s (written L).
Proof.
  intros Hin Hs.
  destruct (led_request_shape type st L Hin) as (store & E & Hst).
  destruct (render_lines (store L)) as (tr & Er & _ & Hsinks).
  assert (W : written (store L) = written L).
  { subst store. destruct type; reflexivity. }
  rewrite E, Er. cbn [written appendLines]. rewrite W, linesOf_app.
  rewrite (linesOf_none s tr _ Hsinks Hs). apply app_nil_r.
Qed.

(** A request for one of the three sources of the shared LED leaves the
    slider flag, the LCD flag, the panel maximum and the keyboard value
    alone and writes no line to the LCD stream, the keyboard stream or a
    button stream: every line it writes goes to a stream of the RGB LED. *)
Theorem led_request_leaves_backlights_alone
        (type : LightType) (st : LightState) (L : Light) :
  In type [ATTENTION; BATTERY; NOTIFICATIONS] ->
  let L' := call (CallSetLight type st) L in
  mSliderOpen L' = mSliderOpen L
  /\ mLcdBacklightOn L' = mLcdBacklightOn L
  /\ mLcdBacklight_second L' = mLcdBacklight_second L
  /\ mKeyboardBacklight_second L' = mKeyboardBacklight_second L
  /\ Forall (fun w => isRgbLedSink (fst w) = true)
            (emitted (call (CallSetLight type st)) L)
  /\ (forall s, isRgbLedSink s = false ->
        linesOf s (written L') = linesOf s (written L)).
Proof.
  intros Hin. cbv zeta.
  destruct (led_request_shape type st L Hin) as (store & E & Hs).
  destruct (render_lines (store L)) as (tr & Er & _ & Hsinks).
  assert (W : written (store L) = written L).
  { subst store. destruct type; reflexivity. }
  assert (Em : emitted (call (CallSetLight type st)) L = tr).
  { unfold emitted. rewrite E, Er. cbn [written appendLines]. rewrite W.
    apply skipn_length_app. }
  rewrite Em, E, Er.
  cbn [mSliderOpen mLcdBacklightOn mLcdBacklight_second
       mKeyboardBacklight_second written appendLines].
  rewrite W.
  repeat split; try (subst store; destruct type; reflexivity).
  - exact Hsinks.
  - intros s Hs'. rewrite linesOf_app, (linesOf_none s tr _ Hsinks Hs').
    apply app_nil_r.
Qed.


(** A BACKLIGHT or BUTTONS request, and the slider callback, leave the
    three stored light states alone and write no line to a stream of the
    RGB LED. *)
Theorem backlight_calls_leave_led_alone (c : Call) (L : Light) :
  (exists st, c = CallSetLight BACKLIGHT st \/ c = CallSetLight BUTTONS st)
  \/ (exists open, c = CallSliderChanged open) ->
  mNotificationState (call c L) = mNotificationState L
  /\ mAttentionState (call c L) = mAttentionState L
  /\ mBatteryState (call c L) = mBatteryState L
  /\ (forall s, isRgbLedSink s = true ->
        linesOf s (written (call c L)) = linesOf s (written L)).
Proof.
  intros [[st [->| ->]]|[open ->]].
  - change (call (CallSetLight BACKLIGHT st) L) with (setLcdBacklight st L).
    rewrite setLcdBacklight_eq. cbv zeta. cbn [mNotificationState
      mAttentionState mBatteryState written appendLines
      set_mKeyboardBacklight_second set_mLcdBacklightOn].
    repeat split. intros s Hs. rewrite linesOf_app.
    rewrite (linesOf_not_written s [_; _]); [apply app_nil_r|].
    cbn. intros [<-|[<-|[]]]; discriminate.
  - change (call (CallSetLight BUTTONS st) L) with (setButtonsBacklight st L).
    unfold setButtonsBacklight. rewrite putButtons_eq.
    cbn [mNotificationState mAttentionState mBatteryState written
         appendLines].
    repeat split. intros s Hs. rewrite linesOf_app.
    rewrite (linesOf_not_written s (map _ _)); [apply app_nil_r|].
    rewrite map_map. cbn [fst]. intros Hin. apply in_map_iff in Hin.
    destruct Hin as (i & <- & _). discriminate.
  - change (call (CallSliderChanged open) L) with (onSliderChanged open L).
    rewrite onSliderChanged_eq. cbn [mNotificationState
      mAttentionState mBatteryState written appendLines
      set_mKeyboardBacklight_second set_mSliderOpen].
    repeat split. intros s Hs. rewrite linesOf_app.
    rewrite (linesOf_not_written s [_]); [apply app_nil_r|].
    cbn. intros [<-|[]]; discriminate.
Qed.

(** ** Invariants of the lines written *)

Lemma rgbToBrightness_byte (st : LightState) : 0 <= rgbToBrightness st <= 255.
Proof.
  rewrite rgbToBrightness_formula.
  destruct (chan_byte (color st)) as (HR & HG & HB).
  split; [apply Z.div_pos; lia|].
  apply Z.lt_succ_r, Z.div_lt_upper_bound; lia.
Qed.

(** Every call appends well-formed lines to the trace. *)
Lemma call_lines (c : Call) (L : Light) :
  exists tr, written (call c L) = written L ++ tr /\ Forall lineOk tr.
Proof.
  destruct c as [type st|open].
  - destruct type.
    + change (call (CallSetLight BACKLIGHT st) L) with (setLcdBacklight st L).
      rewrite setLcdBacklight_eq. cbv zeta. eexists.
      split; [reflexivity|].
      constructor; [exact I|]. constructor; [|constructor]. cbn.
      destruct (mSliderOpen L && negb (color st =? 0)); auto.
    + exists []. split; [now rewrite app_nil_r|constructor].
    + change (call (CallSetLight BUTTONS st) L) with (setButtonsBacklight st L).
      unfold setButtonsBacklight. rewrite putButtons_eq. eexists.
      split; [reflexivity|]. apply Forall_forall. intros w Hw.
      apply in_map_iff in Hw. destruct Hw as (i & <- & _). cbn.
      exists (rgbToBrightness st). split; [reflexivity|].
      apply rgbToBrightness_byte.
    + destruct (led_request_shape BATTERY st L) as (store & E & ->);
        [cbn; tauto|].
      rewrite E. destruct (render_lines (set_mBatteryState st L))
        as (tr & -> & Hok & _).
      exists tr. split; [reflexivity|exact Hok].
    + destruct (led_request_shape NOTIFICATIONS st L) as (store & E & ->);
        [cbn; tauto|].
      rewrite E.
      destruct (render_lines
                  (set_mNotificationState (scaledNotification st) L))
        as (tr & -> & Hok & _).
      exists tr. split; [reflexivity|exact Hok].
    + destruct (led_request_shape ATTENTION st L) as (store & E & ->);
        [cbn; tauto|].
      rewrite E. destruct (render_lines (set_mAttentionState st L))
        as (tr & -> & Hok & _).
      exists tr. split; [reflexivity|exact Hok].
    + exists []. split; [now rewrite app_nil_r|constructor].
    + exists []. split; [now rewrite app_nil_r|constructor].
  - change (call (CallSliderChanged open) L) with (onSliderChanged open L).
    rewrite onSliderChanged_eq. eexists. split; [reflexivity|].
    constructor; [|constructor]. cbn.
    destruct (open && mLcdBacklightOn L); auto.
Qed.

Lemma run_lines (cs : list Call) (L : Light) :
  exists tr, written (run cs L) = written L ++ tr /\ Forall lineOk tr.
Proof.
  revert L. induction cs as [|c cs IH]; intros L.
  - exists []. split; [now rewrite app_nil_r|constructor].
  - change (run (c :: cs) L) with (run cs (call c L)).
    destruct (IH (call c L)) as (t2 & E2 & H2).
    destruct (call_lines c L) as (t1 & E1 & H1).
    exists (t1 ++ t2). split.
    + now rewrite E2, E1, app_assoc.
    + apply Forall_app. now split.
Qed.

(** In every state a run of requests and slider callbacks reaches from a
    fresh object, every line written so far is well formed: blink-enable
    lines are 0, keyboard lines are 0 or 255, LED and button brightness
    lines are between 0 and 255, the ramp start indices are 0 (red),
    8 (green) and 16 (blue), and a duty-cycle line is the percentage string
    of a channel value between 0 and 255. *)
Theorem every_line_written_is_well_formed
        (lcd_max keyboard_max : Z) (buttons : nat)
        (attention battery notification : LightState) (cs : list Call) :
  Forall lineOk
         (written (run cs (Light_ctor lcd_max keyboard_max buttons
                                      attention battery notification))).
Proof.
  destruct (run_lines cs (Light_ctor lcd_max keyboard_max buttons
                                     attention battery notification))
    as (tr & -> & H).
  exact H.
Qed.

(** No run ever turns blinking on through a blink-enable stream: whatever
    the requests, flash modes and timings, each line written to the red,
    green or blue blink-enable stream is 0. *)
Theorem blink_enable_is_only_ever_cleared
        (lcd_max keyboard_max : Z) (buttons : nat)
        (attention battery notification : LightState) (cs : list Call) :
  Forall (fun s =>
            Forall (fun v => v = Num 0)
                   (linesOf s (written
                                 (run cs (Light_ctor lcd_max keyboard_max
                                                     buttons attention battery
                                                     notification)))))
         [mRedBlink; mGreenBlink; mBlueBlink].
Proof.
  destruct (run_lines cs (Light_ctor lcd_max keyboard_max buttons
                                     attention battery notification))
    as (tr & -> & H).
  cbn [written Light_ctor app].
  assert (K : forall s, In s blinkSinks ->
                        Forall (fun v => v = Num 0) (linesOf s tr)).
  { intros s Hs. apply Forall_forall. intros v Hv.
    unfold linesOf in Hv. apply in_map_iff in Hv.
    destruct Hv as ([s' v'] & <- & Hw). apply filter_In in Hw.
    destruct Hw as [Hw Hs']. cbn [fst snd] in *.
    unfold Sink_eqb in Hs'. destruct (Sink_eq_dec s' s) as [->|]; [|discriminate].
    rewrite Forall_forall in H. specialize (H _ Hw).
    destruct Hs as [<-|[<-|[<-|[]]]]; exact H. }
  repeat constructor; apply K; cbn; tauto.
Qed.

(** ** Stored states *)

(** The three stored states after one call. *)
Lemma call_states (c : Call) (L : Light) :
  mAttentionState (call c L) =
    match c with
    | CallSetLight ATTENTION st => st
    | _ => mAttentionState L
    end
  /\ mBatteryState (call c L) =
    match c with
    | CallSetLight BATTERY st => st
    | _ => mBatteryState L
    end
  /\ mNotificationState (call c L) =
    match c with
    | CallSetLight NOTIFICATIONS st => scaledNotification st
    | _ => mNotificationState L
    end.
Proof.
  destruct c as [type st|open].
  - destruct type; try (repeat split; reflexivity).
    + change (call (CallSetLight BUTTONS st) L) with (setButtonsBacklight st L).
      unfold setButtonsBacklight. rewrite putButtons_eq. repeat split.
    + destruct (led_request_shape BATTERY st L) as (store & -> & ->);
        [cbn; tauto|].
      destruct (render_keeps_members (set_mBatteryState st L))
        as (-> & -> & -> & _).
      repeat split.
    + destruct (led_request_shape NOTIFICATIONS st L) as (store & -> & ->);
        [cbn; tauto|].
      destruct (render_keeps_members
                  (set_mNotificationState (scaledNotification st) L))
        as (-> & -> & -> & _).
      repeat split.
    + destruct (led_request_shape ATTENTION st L) as (store & -> & ->);
        [cbn; tauto|].
      destruct (render_keeps_members (set_mAttentionState st L))
        as (-> & -> & -> & _).
      repeat split.
  - repeat split.
Qed.

(** The service retains the last value per source: after any run the stored
    attention and battery states are the states of the last ATTENTION and
    BATTERY requests, and the stored notification state is the scaled state
    of the last NOTIFICATIONS request; a source no request named keeps the
    state it had.  Requests for other types and slider callbacks do not
    change them. *)
Theorem run_retains_last_state_per_source (cs : list Call) (L : Light) :
  mAttentionState (run cs L) = lastAttention cs (mAttentionState L)
  /\ mBatteryState (run cs L) = lastBattery cs (mBatteryState L)
  /\ mNotificationState (run cs L)
     = lastNotification cs (mNotificationState L).
Proof.
  revert L. induction cs as [|c cs IH]; intros L; [repeat split|].
  change (run (c :: cs) L) with (run cs (call c L)).
  destruct (IH (call c L)) as (-> & -> & ->).
  destruct (call_states c L) as (-> & -> & ->).
  destruct c as [[] st|open]; repeat split.
Qed.

(** ** The keyboard value in every state *)

Lemma call_keyboard_second (c : Call) (L : Light) :
  mKeyboardBacklight_second (call c L) =
  if touchesKeyboard c
  then (if mSliderOpen (call c L) && mLcdBacklightOn (call c L)
        then 255 else 0)
  else mKeyboardBacklight_second L.
Proof.
  destruct c as [type st|open].
  - destruct type; try reflexivity.
    + change (call (CallSetLight BUTTONS st) L) with (setButtonsBacklight st L).
      unfold setButtonsBacklight. now rewrite putButtons_eq.
    + destruct (led_request_shape BATTERY st L) as (store & -> & ->);
        [cbn; tauto|].
      now destruct (setSpeakerBatteryLightLocked_appends
                      (set_mBatteryState st L)) as [tr ->].
    + destruct (led_request_shape NOTIFICATIONS st L) as (store & -> & ->);
        [cbn; tauto|].
      now destruct (setSpeakerBatteryLightLocked_appends
                      (set_mNotificationState (scaledNotification st) L))
        as [tr ->].
    + destruct (led_request_shape ATTENTION st L) as (store & -> & ->);
        [cbn; tauto|].
      now destruct (setSpeakerBatteryLightLocked_appends
                      (set_mAttentionState st L)) as [tr ->].
  - reflexivity.
Qed.

Lemma call_keyboard_lines (c : Call) (L : Light) :
  linesOf mKeyboardBacklight_first (written (call c L)) =
  linesOf mKeyboardBacklight_first (written L)
  ++ (if touchesKeyboard c
      then [Num (mKeyboardBacklight_second (call c L))] else []).
Proof.
  destruct c as [type st|open].
  - destruct type; try (cbn; now rewrite app_nil_r).
    + change (call (CallSetLight BACKLIGHT st) L) with (setLcdBacklight st L).
      rewrite setLcdBacklight_eq. cbv zeta.
      cbn [written appendLines mKeyboardBacklight_second
           set_mKeyboardBacklight_second touchesKeyboard].
      now rewrite linesOf_app.
    + change (call (CallSetLight BUTTONS st) L) with (setButtonsBacklight st L).
      unfold setButtonsBacklight. rewrite putButtons_eq.
      cbn [written appendLines touchesKeyboard]. rewrite linesOf_app.
      f_equal. apply linesOf_not_written. rewrite map_map. cbn [fst].
      intros Hin. apply in_map_iff in Hin. destruct Hin as (i & E & _).
      discriminate.
    + cbn [touchesKeyboard]. rewrite app_nil_r.
      apply led_request_keeps_other_lines; [cbn; tauto|reflexivity].
    + cbn [touchesKeyboard]. rewrite app_nil_r.
      apply led_request_keeps_other_lines; [cbn; tauto|reflexivity].
    + cbn [touchesKeyboard]. rewrite app_nil_r.
      apply led_request_keeps_other_lines; [cbn; tauto|reflexivity].
  - change (call (CallSliderChanged open) L) with (onSliderChanged open L).
    rewrite onSliderChanged_eq.
    cbn [written appendLines mKeyboardBacklight_second
         set_mKeyboardBacklight_second touchesKeyboard].
    now rewrite linesOf_app.
Qed.

Lemma lastLine_snoc (s : Sink) (tr : Trace) (l : list Line) (v : Line) :
  linesOf s tr = l ++ [v] -> lastLine s tr = Some v.
Proof.
  intros E. unfold lastLine. rewrite E, map_app. cbn [map].
  apply last_last.
Qed.

(** In every state a run reaches from a fresh object the keyboard is
    consistent.  Before the first BACKLIGHT request or slider callback
    nothing was written to the keyboard stream and the keyboard value is
    the one given at construction.  From then on the keyboard stream holds
    the keyboard value, which is 255 when the slider flag and the LCD flag
    are both set and 0 otherwise; requests for the LED or the buttons in
    between do not disturb it. *)
Theorem keyboard_is_consistent_in_every_state
        (lcd_max keyboard_max : Z) (buttons : nat)
        (attention battery notification : LightState) (cs : list Call) :
  let L := run cs (Light_ctor lcd_max keyboard_max buttons
                              attention battery notification) in
  if rendersKeyboard cs
  then lastLine mKeyboardBacklight_first (written L)
         = Some (Num (mKeyboardBacklight_second L))
       /\ mKeyboardBacklight_second L
         = (if mSliderOpen L && mLcdBacklightOn L then 255 else 0)
  else linesOf mKeyboardBacklight_first (written L) = []
       /\ mKeyboardBacklight_second L = keyboard_max.
Proof.
  cbv zeta.
  set (L0 := Light_ctor lcd_max keyboard_max buttons
                        attention battery notification).
  induction cs as [|c cs IH] using rev_ind.
  - cbn. split; reflexivity.
  - rewrite run_snoc. unfold rendersKeyboard in *.
    rewrite existsb_app. cbn [existsb]. rewrite orb_false_r.
    pose proof (call_keyboard_second c (run cs L0)) as K2.
    pose proof (call_keyboard_lines c (run cs L0)) as KL.
    destruct (touchesKeyboard c) eqn:T.
    + rewrite orb_true_r. split; [|exact K2].
      eapply lastLine_snoc. exact KL.
    + rewrite orb_false_r. rewrite app_nil_r in KL.
      destruct (call_flags c (run cs L0)) as [F1 F2].
      assert (F : mSliderOpen (call c (run cs L0)) = mSliderOpen (run cs L0)
                  /\ mLcdBacklightOn (call c (run cs L0))
                     = mLcdBacklightOn (run cs L0)).
      { rewrite F1, F2. destruct c as [[] st|open]; try discriminate;
          split; reflexivity. }
      destruct F as [-> ->]. rewrite K2.
      unfold lastLine in *. rewrite KL. exact IH.
Qed.

(** ** Requests one after the other *)

Lemma render_same_winner (L L' : Light) :
  winner L = winner L' ->
  exists tr, setSpeakerBatteryLightLocked L = appendLines tr L
             /\ setSpeakerBatteryLightLocked L' = appendLines tr L'.
Proof.
  intros E. rewrite !setSpeakerBatteryLightLocked_winner, <- E.
  destruct (winner L) as [st|].
  - destruct (setSpeakerLightLocked_appends st) as [tr H]. now exists tr.
  - now exists lightsOff.
Qed.

Lemma emitted_nothing (f : Light -> Light) (L : Light) :
  f L = L -> emitted f L = [].
Proof. intros E. unfold emitted. rewrite E. apply skipn_all. Qed.

(** Repeating a call is harmless: the second time it writes the same lines
    as the first time and leaves every member as the first call left it.
    This holds for requests of every type, supported or not, and for the
    slider callback. *)
Theorem repeating_a_call_writes_the_same_lines (c : Call) (L : Light) :
  call c (call c L) = appendLines (emitted (call c) L) (call c L)
  /\ emitted (call c) (call c L) = emitted (call c) L.
Proof.
  assert (H : call c (call c L) = appendLines (emitted (call c) L) (call c L)).
  { destruct c as [type st|open].
    - destruct type.
      + change (call (CallSetLight BACKLIGHT st)) with (setLcdBacklight st).
        pose proof (setLcdBacklight_eq st L) as E. cbv zeta in E.
        match type of E with
        | _ = appendLines ?tr _ =>
            assert (Em : emitted (setLcdBacklight st) L = tr)
              by (eapply emitted_appendLines_on; [|exact E]; reflexivity)
        end.
        rewrite Em, (setLcdBacklight_eq st (setLcdBacklight st L)).
        cbv zeta. rewrite E. destruct L; reflexivity.
      + change (call (CallSetLight KEYBOARD st) L) with L.
        rewrite emitted_nothing by reflexivity. now rewrite appendLines_nil.
      + change (call (CallSetLight BUTTONS st))
          with (setButtonsBacklight st).
        assert (E : setButtonsBacklight st L =
                    appendLines
                      (map (fun i => (mButtonBacklight i,
                                      Num (rgbToBrightness st)))
                           (seq 0 (mButtonBacklight_size L))) L).
        { unfold setButtonsBacklight. apply putButtons_eq. }
        rewrite (emitted_appendLines _ _ _ E).
        unfold setButtonsBacklight at 1. rewrite putButtons_eq.
        rewrite E. reflexivity.
      + change (call (CallSetLight BATTERY st))
          with (set_mBatteryState st ;; setSpeakerBatteryLightLocked).
        rewrite emitted_store_render by reflexivity. unfold andThen.
        destruct (setSpeakerBatteryLightLocked_appends
                    (set_mBatteryState st L)) as [tr E].
        rewrite (emitted_appendLines _ _ _ E), E.
        change (set_mBatteryState st (appendLines tr (set_mBatteryState st L)))
          with (appendLines tr (set_mBatteryState st L)).
        destruct (render_same_winner
                    (set_mBatteryState st L)
                    (appendLines tr (set_mBatteryState st L)) eq_refl)
          as (tr' & E1 & E2).
        rewrite E2. f_equal. rewrite E in E1.
        apply (f_equal written) in E1. cbn [written appendLines] in E1.
        now apply app_inv_head in E1.
      + change (call (CallSetLight NOTIFICATIONS st) (call (CallSetLight NOTIFICATIONS st) L))
          with (setNotificationLight st (setNotificationLight st L)).
        unfold emitted.
        change (call (CallSetLight NOTIFICATIONS st) L)
          with (setNotificationLight st L).
        rewrite (setNotificationLight_stores st (setNotificationLight st L)).
        rewrite (setNotificationLight_stores st L). cbv zeta.
        fold (scaledNotification st).
        set (X := set_mNotificationState (scaledNotification st) L).
        destruct (setSpeakerBatteryLightLocked_appends X) as [tr E].
        rewrite E. cbn [written appendLines].
        change (written X) with (written L). rewrite skipn_length_app.
        change (set_mNotificationState (scaledNotification st)
                                       (appendLines tr X))
          with (appendLines tr X).
        destruct (render_same_winner X (appendLines tr X) eq_refl)
          as (tr' & E1 & E2).
        rewrite E2. f_equal. rewrite E in E1.
        apply (f_equal written) in E1. cbn [written appendLines] in E1.
        now apply app_inv_head in E1.
      + change (call (CallSetLight ATTENTION st))
          with (set_mAttentionState st ;; setSpeakerBatteryLightLocked).
        rewrite emitted_store_render by reflexivity. unfold andThen.
        destruct (setSpeakerBatteryLightLocked_appends
                    (set_mAttentionState st L)) as [tr E].
        rewrite (emitted_appendLines _ _ _ E), E.
        change (set_mAttentionState st
                  (appendLines tr (set_mAttentionState st L)))
          with (appendLines tr (set_mAttentionState st L)).
        destruct (render_same_winner
                    (set_mAttentionState st L)
                    (appendLines tr (set_mAttentionState st L)) eq_refl)
          as (tr' & E1 & E2).
        rewrite E2. f_equal. rewrite E in E1.
        apply (f_equal written) in E1. cbn [written appendLines] in E1.
        now apply app_inv_head in E1.
      + change (call (CallSetLight BLUETOOTH st) L) with L.
        rewrite emitted_nothing by reflexivity. now rewrite appendLines_nil.
      + change (call (CallSetLight WIFI st) L) with L.
        rewrite emitted_nothing by reflexivity. now rewrite appendLines_nil.
    - change (call (CallSliderChanged open)) with (onSliderChanged open).
      pose proof (onSliderChanged_eq open L) as E.
      match type of E with
      | _ = appendLines ?tr _ =>
          assert (Em : emitted (onSliderChanged open) L = tr)
            by (eapply emitted_appendLines_on; [|exact E]; reflexivity)
      end.
      rewrite Em, (onSliderChanged_eq open (onSliderChanged open L)).
      rewrite E. destruct L; reflexivity. }
  split; [exact H|].
  now apply emitted_appendLines.
Qed.

(** A request for a lower-priority source cannot take the LED from a lit
    higher-priority one: while the stored notification is lit, an ATTENTION
    or BATTERY request writes the lines of rendering the notification again;
    while the notification is dark and the stored attention is lit, a
    BATTERY request writes the lines of rendering the attention again. *)
Theorem lower_priority_request_renders_the_winner_again
        (st : LightState) (L : Light) :
  (isLit (mNotificationState L) = true ->
     emitted (call (CallSetLight ATTENTION st)) L =
       emitted (setSpeakerLightLocked (mNotificationState L)) L
     /\ emitted (call (CallSetLight BATTERY st)) L =
       emitted (setSpeakerLightLocked (mNotificationState L)) L)
  /\ (isLit (mNotificationState L) = false ->
      isLit (mAttentionState L) = true ->
      emitted (call (CallSetLight BATTERY st)) L =
        emitted (setSpeakerLightLocked (mAttentionState L)) L).
Proof.
  destruct (setSpeakerLightLocked_appends (mNotificationState L)) as [tn En].
  destruct (setSpeakerLightLocked_appends (mAttentionState L)) as [ta Ea].
  split.
  - intros Hn. rewrite (emitted_appendLines _ _ _ (En L)). split.
    + change (call (CallSetLight ATTENTION st))
        with (set_mAttentionState st ;; setSpeakerBatteryLightLocked).
      rewrite emitted_store_render by reflexivity.
      apply emitted_appendLines.
      rewrite setSpeakerBatteryLightLocked_winner. unfold winner.
      cbn [mNotificationState set_mAttentionState]. rewrite Hn. apply En.
    + change (call (CallSetLight BATTERY st))
        with (set_mBatteryState st ;; setSpeakerBatteryLightLocked).
      rewrite emitted_store_render by reflexivity.
      apply emitted_appendLines.
      rewrite setSpeakerBatteryLightLocked_winner. unfold winner.
      cbn [mNotificationState set_mBatteryState]. rewrite Hn. apply En.
  - intros Hn Ha. rewrite (emitted_appendLines _ _ _ (Ea L)).
    change (call (CallSetLight BATTERY st))
      with (set_mBatteryState st ;; setSpeakerBatteryLightLocked).
    rewrite emitted_store_render by reflexivity.
    apply emitted_appendLines.
    rewrite setSpeakerBatteryLightLocked_winner. unfold winner.
    cbn [mNotificationState mAttentionState set_mBatteryState].
    rewrite Hn, Ha. apply Ea.
Qed.

(** ** More on the notification brightness *)

Lemma scaled_channel_le (x b : Z) :
  0 <= x < 256 -> 0 <= b < 256 -> x * b / 255 <= x.
Proof. intros Hx Hb. apply Z.div_le_upper_bound; nia. Qed.

Lemma scaled_channel_zero (x b : Z) :
  0 <= x < 256 -> 0 <= b < 256 -> (x * b / 255 =? 0) = (x * b <? 255).
Proof.
  intros Hx Hb. assert (0 <= x * b) by nia.
  destruct (Z.ltb_spec (x * b) 255) as [H1|H1].
  - apply Z.eqb_eq, Z.div_small. lia.
  - apply Z.eqb_neq. intros E.
    pose proof (Z.div_mod (x * b) 255 ltac:(lia)) as D.
    pose proof (Z.mod_pos_bound (x * b) 255 ltac:(lia)) as M.
    rewrite E in D. lia.
Qed.

(** The explicit brightness of a NOTIFICATIONS request only dims: no stored
    channel exceeds the request's channel, so a dark request is stored
    dark.  It can dim to darkness: with top byte b strictly between 0 and
    255 the stored state is dark exactly when channel*b < 255 for the three
    channels, and then the notification does not hold the LED.  The stored
    state has nothing left to scale: a request for the stored state stores
    it as it is. *)
Theorem notification_brightness_only_dims (st : LightState) (L : Light) :
  let c := color st in
  let b := chanA c in
  let stored := mNotificationState (snd (setLight NOTIFICATIONS st L)) in
  chanR (color stored) <= chanR c
  /\ chanG (color stored) <= chanG c
  /\ chanB (color stored) <= chanB c
  /\ (isLit st = false -> isLit stored = false)
  /\ (0 < b < 255 ->
      (isLit stored = false <->
       chanR c * b < 255 /\ chanG c * b < 255 /\ chanB c * b < 255))
  /\ (forall L', mNotificationState (snd (setLight NOTIFICATIONS stored L'))
                 = stored).
Proof.
  cbv zeta.
  assert (S : forall X Y, mNotificationState (snd (setLight NOTIFICATIONS X Y))
                          = scaledNotification X).
  { intros X Y.
    change (snd (setLight NOTIFICATIONS X Y))
      with (call (CallSetLight NOTIFICATIONS X) Y).
    now destruct (call_states (CallSetLight NOTIFICATIONS X) Y)
      as (_ & _ & ->). }
  rewrite S.
  pose proof (chanR_range (color st)) as HR.
  pose proof (chanG_range (color st)) as HG.
  pose proof (chanB_range (color st)) as HB.
  pose proof (chanA_range (color st)) as HA.
  assert (Hd : isLit st = false -> isLit (scaledNotification st) = false)
    by apply scaled_dark.
  unfold scaledNotification in *. cbv zeta in *.
  destruct (Z.ltb_spec 0 (chanA (color st))) as [H0|H0];
    [destruct (Z.ltb_spec (chanA (color st)) 255) as [H1|H1]|];
    cbn [andb] in *.
  - destruct (chan_pack (chanR (color st) * chanA (color st) / 255)
                        (chanG (color st) * chanA (color st) / 255)
                        (chanB (color st) * chanA (color st) / 255))
      as (ER & EG & EB & EA); try (apply scale_range; assumption).
    cbn [color with_color]. rewrite ER, EG, EB.
    split; [now apply scaled_channel_le|].
    split; [now apply scaled_channel_le|].
    split; [now apply scaled_channel_le|].
    split; [exact Hd|]. split.
    + intros _. rewrite isLit_channels. cbn [color with_color].
      rewrite ER, EG, EB, !scaled_channel_zero by assumption.
      rewrite negb_false_iff, !andb_true_iff, !Z.ltb_lt. tauto.
    + intros L'. rewrite S. unfold scaledNotification. cbv zeta.
      cbn [color with_color]. rewrite EA. reflexivity.
  - repeat split; try lia; try exact Hd.
    intros L'. rewrite S. unfold scaledNotification. cbv zeta.
    destruct (Z.ltb_spec (chanA (color st)) 255); [lia|].
    now rewrite andb_false_r.
  - repeat split; try lia; try exact Hd.
    intros L'. rewrite S. unfold scaledNotification. cbv zeta.
    destruct (Z.ltb_spec 0 (chanA (color st))); [lia|]. reflexivity.
Qed.

(** ** The LCD and the buttons *)

(** With a panel maximum that keeps 255*maximum within 32 bits, a BACKLIGHT
    request writes to the LCD stream, once, the luminance times the maximum
    over 255, truncated: a value between 0 and the maximum, which is the
    maximum itself for white and 0 for a colour with zero channels.  With
    the default maximum 255 it is the luminance. *)
Theorem lcd_brightness_is_scaled_to_the_panel (st : LightState) (L : Light) :
  let max := mLcdBacklight_second L in
  0 <= max -> 255 * max < 4294967296 ->
  exists v,
    linesOf mLcdBacklight_first (emitted (call (CallSetLight BACKLIGHT st)) L)
      = [Num v]
    /\ v = rgbToBrightness st * max / 255
    /\ 0 <= v <= max
    /\ (max = 255 -> v = rgbToBrightness st)
    /\ (chanR (color st) = 255 -> chanG (color st) = 255 ->
        chanB (color st) = 255 -> v = max)
    /\ (isLit st = false -> v = 0).
Proof.
  cbv zeta. intros Hmax Hfit.
  change (call (CallSetLight BACKLIGHT st)) with (setLcdBacklight st).
  pose proof (setLcdBacklight_eq st L) as E. cbv zeta in E.
  match type of E with
  | _ = appendLines ?tr _ =>
      assert (Em : emitted (setLcdBacklight st) L = tr)
        by (eapply emitted_appendLines_on; [|exact E]; reflexivity)
  end.
  rewrite Em. clear E Em.
  pose proof (rgbToBrightness_byte st) as Hl.
  assert (V : (if negb (mLcdBacklight_second L =? DEFAULT_MAX_BRIGHTNESS)
               then U32.div (U32.mul (rgbToBrightness st)
                                     (mLcdBacklight_second L))
                            DEFAULT_MAX_BRIGHTNESS
               else rgbToBrightness st)
              = rgbToBrightness st * mLcdBacklight_second L / 255).
  { unfold DEFAULT_MAX_BRIGHTNESS.
    destruct (Z.eqb_spec (mLcdBacklight_second L) 255) as [->|N]; cbn [negb].
    - now rewrite Z.div_mul by lia.
    - unfold U32.div, U32.mul. rewrite u32_small by nia. reflexivity. }
  rewrite V. eexists. split; [reflexivity|]. split; [reflexivity|].
  split; [|split; [|split]].
  - split; [apply Z.div_pos; nia|]. apply Z.div_le_upper_bound; nia.
  - intros ->. now rewrite Z.div_mul by lia.
  - intros ER EG EB. rewrite rgbToBrightness_formula, ER, EG, EB.
    change ((77 * 255 + 150 * 255 + 29 * 255) / 256) with 255.
    rewrite Z.mul_comm. now rewrite Z.div_mul by lia.
  - intros Hd. rewrite isLit_channels in Hd. apply negb_false_iff in Hd.
    apply andb_true_iff in Hd. destruct Hd as [Hd HB].
    apply andb_true_iff in Hd. destruct Hd as [HR HG].
    apply Z.eqb_eq in HR, HG, HB.
    rewrite rgbToBrightness_formula, HR, HG, HB. reflexivity.
Qed.

Lemma linesOf_buttons (i : nat) (v : Z) (a n : nat) :
  linesOf (mButtonBacklight i)
          (map (fun j => (mButtonBacklight j, Num v)) (seq a n)) =
  if ((a <=? i) && (i <? a + n))%nat then [Num v] else [].
Proof.
  revert a. induction n as [|n IH]; intros a.
  - unfold linesOf. cbn [seq map filter]. rewrite Nat.add_0_r.
    destruct (Nat.leb_spec a i), (Nat.ltb_spec i a); cbn [andb];
      try reflexivity; lia.
  - cbn [seq map]. unfold linesOf in *. cbn [filter fst].
    unfold Sink_eqb at 1.
    destruct (Sink_eq_dec (mButtonBacklight a) (mButtonBacklight i)) as [E|N].
    + injection E as ->. cbn [map snd]. rewrite IH.
      destruct (Nat.leb_spec (S i) i); [lia|]. cbn [andb].
      destruct (Nat.leb_spec i i); [|lia].
      destruct (Nat.ltb_spec i (i + S n)); [|lia]. reflexivity.
    + rewrite IH. assert (a <> i) by congruence.
      replace (a + S n)%nat with (S a + n)%nat by lia.
      destruct (Nat.leb_spec (S a) i), (Nat.leb_spec a i); cbn [andb];
        try reflexivity; lia.
Qed.

(** A BUTTONS request writes the luminance of the colour once to each
    button stream, in the order of the streams, and to no other stream; the
    members of the object are unchanged.  With no button stream it does
    nothing at all. *)
Theorem buttons_request_writes_each_button_once (st : LightState) (L : Light) :
  emitted (call (CallSetLight BUTTONS st)) L =
    map (fun i => (mButtonBacklight i, Num (rgbToBrightness st)))
        (seq 0 (mButtonBacklight_size L))
  /\ (forall i,
        linesOf (mButtonBacklight i) (emitted (call (CallSetLight BUTTONS st)) L)
        = if (i <? mButtonBacklight_size L)%nat
          then [Num (rgbToBrightness st)] else [])
  /\ call (CallSetLight BUTTONS st) L =
     appendLines (emitted (call (CallSetLight BUTTONS st)) L) L
  /\ (mButtonBacklight_size L = 0%nat -> call (CallSetLight BUTTONS st) L = L).
Proof.
  change (call (CallSetLight BUTTONS st)) with (setButtonsBacklight st).
  assert (E : setButtonsBacklight st L =
              appendLines
                (map (fun i => (mButtonBacklight i, Num (rgbToBrightness st)))
                     (seq 0 (mButtonBacklight_size L))) L).
  { unfold setButtonsBacklight. apply putButtons_eq. }
  rewrite (emitted_appendLines _ _ _ E).
  split; [reflexivity|]. split; [|split].
  - intros i. rewrite linesOf_buttons. reflexivity.
  - exact E.
  - intros Hz. rewrite E, Hz. apply appendLines_nil.
Qed.

(** [getSupportedTypes] and [setLight] agree: the list holds five types
    without repetition, and a request succeeds exactly for the types of the
    list and is refused with LIGHT_NOT_SUPPORTED exactly for the others. *)
Theorem setLight_succeeds_exactly_on_listed_types
        (type : LightType) (st : LightState) (L : Light) :
  (fst (setLight type st L) = SUCCESS <-> In type getSupportedTypes)
  /\ (fst (setLight type st L) = LIGHT_NOT_SUPPORTED <->
      ~ In type getSupportedTypes)
  /\ NoDup getSupportedTypes
  /\ List.length getSupportedTypes = 5%nat.
Proof.
  change getSupportedTypes
    with [NOTIFICATIONS; BUTTONS; BATTERY; BACKLIGHT; ATTENTION].
  split; [|split; [|split; [|reflexivity]]].
  - destruct type; split; intros H; try reflexivity; try discriminate H;
      try (cbn; tauto); exfalso; cbn in H; intuition discriminate.
  - destruct type; split; intros H; try reflexivity; try discriminate H;
      try (cbn; intuition discriminate); exfalso; apply H; cbn; tauto.
  - repeat constructor; cbn; intuition discriminate.
Qed.

(** * The further properties at sample inputs *)

(** Channel value 128: the percentages lie between 0 and 100. *)
Lemma scaledDutyPcts_percentages_witness :
  0 <= 128 <= 255
  /\ Forall (fun p => 0 <= p <= 100) (scaledDutyPcts 128).
Proof.
  assert (H : 0 <= 128 <= 255) by lia.
  split; [exact H|].
  exact (proj1 (proj2 (scaledDutyPcts_percentages 128 H))).
Defined.

(** On time 100 ms: sixteen steps and the hold fit in it. *)
Lemma blink_ramp_fits_on_time_witness :
  blinks redShortBlink = true
  /\ I32.valid (flashOnMs redShortBlink)
  /\ exists stepDuration pauseHi,
       16 * stepDuration + pauseHi <= 100 < 16 * stepDuration + pauseHi + 16.
Proof.
  assert (V : I32.valid (flashOnMs redShortBlink))
    by (vm_compute; split; [discriminate|reflexivity]).
  split; [reflexivity|]. split; [exact V|].
  destruct (blink_ramp_fits_on_time redShortBlink freshLight eq_refl V)
    as (sd & ph & _ & _ & _ & _ & H & _).
  exists sd, ph. exact H.
Defined.

(** Flash mode HARDWARE with positive times is rendered steady. *)
Lemma lit_state_without_timed_flash_is_steady_witness :
  isLit hardwareRed = true
  /\ flashMode hardwareRed <> TIMED
  /\ emitted (setSpeakerLightLocked hardwareRed) freshLight =
     [(mRedLed, Num 255); (mGreenLed, Num 0); (mBlueLed, Num 0)].
Proof.
  assert (N : flashMode hardwareRed <> TIMED) by discriminate.
  split; [reflexivity|]. split; [exact N|].
  exact (lit_state_without_timed_flash_is_steady
           hardwareRed freshLight eq_refl (or_introl N)).
Defined.

(** Four devices, the third and fourth named gpio-keys: the third is
    returned. *)
Lemma openInputDeviceByName_first_match_witness :
  fst (openInputDeviceByName gpioKeys sampleDevices) = Some 2%nat
  /\ nth_error sampleDevices 2 = Some (Some gpioKeys).
Proof.
  split; [reflexivity|].
  exact (proj1 (proj1 (openInputDeviceByName_first_match
                         gpioKeys sampleDevices) 2%nat eq_refl)).
Defined.

(** Same devices: the first one is opened and closed, the third one is
    returned open. *)
Lemma openInputDeviceByName_closes_what_it_skips_witness :
  In (SysOpen 0) (snd (openInputDeviceByName gpioKeys sampleDevices))
  /\ (fst (openInputDeviceByName gpioKeys sampleDevices) = Some 0%nat
      \/ In (SysClose 0) (snd (openInputDeviceByName gpioKeys sampleDevices)))
  /\ ~ In (SysClose 2) (snd (openInputDeviceByName gpioKeys sampleDevices)).
Proof.
  assert (I0 : In (SysOpen 0)
                  (snd (openInputDeviceByName gpioKeys sampleDevices)))
    by (left; reflexivity).
  destruct (openInputDeviceByName_closes_what_it_skips gpioKeys sampleDevices)
    as (H1 & H2 & _).
  split; [exact I0|]. split; [exact (H1 0%nat I0)|].
  exact (proj1 (H2 2%nat eq_refl)).
Defined.

(** Two synchronisation reports change nothing. *)
Lemma sliderMonitorEvents_ignores_other_events_witness :
  Forall (fun ev => isLidEvent ev = false) [synReport; synReport]
  /\ sliderMonitorEvents [synReport; synReport] freshLight = freshLight.
Proof.
  assert (F : Forall (fun ev => isLidEvent ev = false) [synReport; synReport])
    by (repeat constructor).
  split; [exact F|].
  exact (proj2 (sliderMonitorEvents_ignores_other_events
                  [synReport; synReport] freshLight) F).
Defined.

(** An ATTENTION request on a fresh object writes nothing to the keyboard
    stream. *)
Lemma led_request_leaves_backlights_alone_witness :
  In ATTENTION [ATTENTION; BATTERY; NOTIFICATIONS]
  /\ isRgbLedSink mKeyboardBacklight_first = false
  /\ linesOf mKeyboardBacklight_first
       (written (call (CallSetLight ATTENTION redSteady) freshLight))
     = linesOf mKeyboardBacklight_first (written freshLight).
Proof.
  assert (I : In ATTENTION [ATTENTION; BATTERY; NOTIFICATIONS])
    by (left; reflexivity).
  destruct (led_request_leaves_backlights_alone ATTENTION redSteady freshLight I)
    as (_ & _ & _ & _ & _ & H).
  split; [exact I|]. split; [reflexivity|].
  exact (H mKeyboardBacklight_first eq_refl).
Defined.

(** A BUTTONS request on an object with all sources lit keeps the stored
    notification. *)
Lemma backlight_calls_leave_led_alone_witness :
  mNotificationState (call (CallSetLight BUTTONS whiteSteady) allLit)
  = mNotificationState allLit.
Proof.
  exact (proj1 (backlight_calls_leave_led_alone
                  (CallSetLight BUTTONS whiteSteady) allLit
                  (or_introl (ex_intro _ whiteSteady (or_intror eq_refl))))).
Defined.

(** With the notification lit, a BATTERY request writes the notification's
    lines. *)
Lemma lower_priority_request_renders_the_winner_again_witness :
  isLit (mNotificationState allLit) = true
  /\ emitted (call (CallSetLight BATTERY darkState)) allLit =
     emitted (setSpeakerLightLocked (mNotificationState allLit)) allLit.
Proof.
  split; [reflexivity|].
  exact (proj2 (proj1 (lower_priority_request_renders_the_winner_again
                         darkState allLit) eq_refl)).
Defined.

(** Colour 0x01FEFEFE is lit, and its brightness 1 dims every channel to 0:
    the stored notification is dark. *)
Lemma notification_brightness_only_dims_witness :
  0 < chanA (color dimWhite) < 255
  /\ isLit dimWhite = true
  /\ isLit (mNotificationState
              (snd (setLight NOTIFICATIONS dimWhite freshLight))) = false.
Proof.
  assert (B : 0 < chanA (color dimWhite) < 255)
    by (vm_compute; split; reflexivity).
  split; [exact B|]. split; [reflexivity|].
  destruct (notification_brightness_only_dims dimWhite freshLight)
    as (_ & _ & _ & _ & H & _).
  apply (proj2 (H B)). vm_compute. repeat split.
Defined.

(** A panel with maximum 1023: white is written as 1023. *)
Lemma lcd_brightness_is_scaled_to_the_panel_witness :
  0 <= mLcdBacklight_second widePanel
  /\ 255 * mLcdBacklight_second widePanel < 4294967296
  /\ linesOf mLcdBacklight_first
       (emitted (call (CallSetLight BACKLIGHT whiteSteady)) widePanel)
     = [Num 1023].
Proof.
  assert (H0 : 0 <= mLcdBacklight_second widePanel) by (vm_compute; discriminate).
  assert (H1 : 255 * mLcdBacklight_second widePanel < 4294967296)
    by (vm_compute; reflexivity).
  split; [exact H0|]. split; [exact H1|].
  destruct (lcd_brightness_is_scaled_to_the_panel whiteSteady widePanel H0 H1)
    as (v & E & _ & _ & _ & W & _).
  rewrite E, (W eq_refl eq_refl eq_refl). reflexivity.
Defined.

(** With no button stream a BUTTONS request changes nothing. *)
Lemma buttons_request_writes_each_button_once_witness :
  mButtonBacklight_size noButtons = 0%nat
  /\ call (CallSetLight BUTTONS whiteSteady) noButtons = noButtons.
Proof.
  split; [reflexivity|].
  exact (proj2 (proj2 (proj2 (buttons_request_writes_each_button_once
                                whiteSteady noButtons))) eq_refl).
Defined.
